(** * script.js: viewport reveal, footer year, upload-form affordance

    A shallow embedding of [src/script.js] and of the part of the host
    (DOM, IntersectionObserver, event dispatch) the script talks to.

    - Element objects live in a store keyed by reference, so that a
      mutation made through one alias ([entry.target], [event.target],
      the result of a selector) is seen through every other.
    - The node tree of the document is kept next to the store; selectors
      walk it in tree order, [textContent] reads and replaces children.
    - A statement that dereferences [null] throws [TypeError] and aborts
      the rest of the script; what was done before the throw stays done. *)

From Stdlib Require Import QArith Ascii.
From stdpp Require Import gmap strings list pretty.

Set Warnings "-register-all".
Open Scope string_scope.
Open Scope list_scope.

(** ** The DOM *)

(** A reference to an element object. *)
Definition ref := nat.

(** The properties of an element object the script reads or writes.
    [classList] is the DOMTokenList token set: ordered, and kept free of
    duplicates by [DOMTokenList_add]. *)
Record Element := mkElement {
  localName : string;
  id_attr : string;
  classList : list string;
  disabled : bool
}.

(** The node tree: text nodes and elements (by reference) with children. *)
Inductive Node :=
| Text (data : string)
| Elem (r : ref) (childNodes : list Node).

(** An IntersectionObserver: its threshold option (a fraction of the
    target's area, as a rational) and its observation targets in
    registration order. *)
Record IntersectionObserver := mkObserver {
  threshold : Q;
  observationTargets : list ref
}.

Module Entry.
(** IntersectionObserverEntry. *)
Record t := mk {
  target : ref;
  isIntersecting : bool;
  intersectionRatio : Q
}.
End Entry.

Module Event.
(** A submit event in flight. *)
Record t := mk {
  target : ref;
  defaultPrevented : bool
}.
End Event.

(** The page: element objects, the document tree, the script's
    [observer] constant (None until it is constructed) and the element
    on which the script's submit listener is registered, if any. *)
Record Page := mkPage {
  objects : gmap ref Element;
  document : Node;
  observer : option IntersectionObserver;
  submitListener : option ref
}.

(** ** classList.add *)

(** DOMTokenList.add for one token: append to the ordered set. *)
Definition DOMTokenList_add (token : string) (tokens : list string) : list string :=
  if decide (token ∈ tokens) then tokens else tokens ++ [token].

Definition Element_classList_add (token : string) (el : Element) : Element :=
  mkElement (localName el) (id_attr el) (DOMTokenList_add token (classList el)) (disabled el).

(** [r.classList.add(token)] on the page. A reference always denotes an
    object; for a reference outside the store the model changes nothing. *)
Definition classList_add (r : ref) (token : string) (p : Page) : Page :=
  mkPage (alter (Element_classList_add token) r (objects p))
         (document p) (observer p) (submitListener p).

(** The token set of [r.classList], when [r] denotes an object. *)
Definition classListOf (r : ref) (p : Page) : option (list string) :=
  classList <$> objects p !! r.

(** [r.classList.contains(token)]. *)
Definition classList_contains (r : ref) (token : string) (p : Page) : Prop :=
  ∃ tokens, classListOf r p = Some tokens ∧ token ∈ tokens.

(** ** The IntersectionObserver callback (script.js lines 3-9) *)

(** The arrow function passed to [entries.forEach]. *)
Definition onEntry (p : Page) (entry : Entry.t) : Page :=
  if Entry.isIntersecting entry
  then classList_add (Entry.target entry) "visible" p
  else p.

(** [(entries) => { entries.forEach(...) }]. *)
Definition callback (entries : list Entry.t) (p : Page) : Page :=
  foldl onEntry p entries.

(** ** The node tree *)

(** The first [Some] a function gives along a list. *)
Definition firstSome {A B} (f : A → option B) : list A → option B :=
  fix go l :=
    match l with
    | [] => None
    | a :: l' => match f a with Some b => Some b | None => go l' end
    end.

(** The elements of a subtree in tree order, its root first. *)
Fixpoint elementsOf (n : Node) : list ref :=
  match n with
  | Text _ => []
  | Elem r kids => r :: (kids ≫= elementsOf)
  end.

(** The subtree rooted at element [r] (the first one in tree order). *)
Fixpoint subtree (r : ref) (n : Node) : option Node :=
  match n with
  | Text _ => None
  | Elem r' kids => if decide (r' = r) then Some n else firstSome (subtree r) kids
  end.

(** The descendants of element [r] in tree order, [r] itself excluded. *)
Definition descendants (r : ref) (n : Node) : list ref :=
  match subtree r n with
  | Some (Elem _ kids) => kids ≫= elementsOf
  | _ => []
  end.

(** The concatenated data of the text nodes of a subtree. *)
Fixpoint textOf (n : Node) : string :=
  match n with
  | Text data => data
  | Elem _ kids => String.concat EmptyString (textOf <$> kids)
  end.

(** Replace all children of element [r]. *)
Fixpoint replaceChildren (r : ref) (new : list Node) (n : Node) : Node :=
  match n with
  | Text _ => n
  | Elem r' kids =>
      if decide (r' = r) then Elem r' new
      else Elem r' (replaceChildren r new <$> kids)
  end.

(** The [textContent] getter of an element of the document. *)
Definition textContent (r : ref) (p : Page) : option string :=
  textOf <$> subtree r (document p).

(** The [textContent] setter: the children of [r] are replaced by one
    text node holding [s], or by nothing when [s] is empty. Elements
    removed with the old children leave the tree and keep their objects
    in the store. *)
Definition set_textContent (r : ref) (s : string) (p : Page) : Page :=
  mkPage (objects p)
         (replaceChildren r (if decide (s = EmptyString) then [] else [Text s]) (document p))
         (observer p) (submitListener p).

Definition Element_set_disabled (b : bool) (el : Element) : Element :=
  mkElement (localName el) (id_attr el) (classList el) b.

(** [r.disabled = b]. *)
Definition set_disabled (r : ref) (b : bool) (p : Page) : Page :=
  mkPage (alter (Element_set_disabled b) r (objects p))
         (document p) (observer p) (submitListener p).

(** ** Selectors *)

Definition hasClass (p : Page) (c : string) (r : ref) : bool :=
  match objects p !! r with
  | Some el => bool_decide (c ∈ classList el)
  | None => false
  end.

Definition hasId (p : Page) (i : string) (r : ref) : bool :=
  match objects p !! r with
  | Some el => bool_decide (id_attr el = i)
  | None => false
  end.

Definition hasLocalName (p : Page) (tag : string) (r : ref) : bool :=
  match objects p !! r with
  | Some el => bool_decide (localName el = tag)
  | None => false
  end.

(** [document.querySelectorAll('.c')]: a static list, in tree order. *)
Definition querySelectorAll (c : string) (p : Page) : list ref :=
  filter (λ r, hasClass p c r) (elementsOf (document p)).

(** [document.querySelector('.c')]: the first match, or null. *)
Definition querySelector (c : string) (p : Page) : option ref :=
  head (querySelectorAll c p).

(** [document.getElementById(i)]: the first element in tree order whose
    id is [i], or null. *)
Definition getElementById (i : string) (p : Page) : option ref :=
  head (filter (λ r, hasId p i r) (elementsOf (document p))).

(** [r.querySelector(tag)] with a type selector: the first descendant
    of [r] with that local name, or null. *)
Definition Element_querySelector (r : ref) (tag : string) (p : Page) : option ref :=
  head (filter (λ d, hasLocalName p tag d) (descendants r (document p))).

(** ** Running the script: state and exceptions *)

Inductive Exception := TypeError | ReferenceError.

Inductive Completion (A : Type) :=
| Normal (a : A)
| Throw (e : Exception).
Arguments Normal {A} a.
Arguments Throw {A} e.

(** A computation on the page that returns or throws; the page it
    leaves is kept in both cases. *)
Definition Script (A : Type) : Type := Page → Page * Completion A.

#[global] Instance Script_ret : MRet Script := λ A a p, (p, Normal a).

#[global] Instance Script_bind : MBind Script := λ A B f m p,
  match m p with
  | (p', Normal a) => f a p'
  | (p', Throw e) => (p', Throw e)
  end.

Definition gets {A} (f : Page → A) : Script A := λ p, (p, Normal (f p)).
Definition modify (f : Page → Page) : Script unit := λ p, (f p, Normal ()).
Definition throw {A} (e : Exception) : Script A := λ p, (p, Throw e).

(** [l.forEach(f)]. *)
Fixpoint forEach {A} (l : list A) (f : A → Script unit) : Script unit :=
  match l with
  | [] => mret ()
  | a :: l' => f a;; forEach l' f
  end.

(** What the script reads from the host: whether the global
    [IntersectionObserver] is defined, and [new Date().getFullYear()]. *)
Record Host := mkHost {
  intersectionObserverDefined : bool;
  fullYear : Z
}.

(** [observer = new IntersectionObserver(callback, { threshold })]:
    a ReferenceError where the host does not define the constructor. *)
Definition new_IntersectionObserver (host : Host) (thr : Q) : Script unit :=
  if intersectionObserverDefined host
  then modify (λ p, mkPage (objects p) (document p)
                           (Some (mkObserver thr [])) (submitListener p))
  else throw ReferenceError.

(** IntersectionObserver.observe: a target already observed is not
    registered again. *)
Definition observe (element : ref) (o : IntersectionObserver) : IntersectionObserver :=
  if decide (element ∈ observationTargets o) then o
  else mkObserver (threshold o) (observationTargets o ++ [element]).

(** [observer.observe(element)]. *)
Definition observer_observe (element : ref) : Script unit :=
  modify (λ p, mkPage (objects p) (document p)
                      (observe element <$> observer p) (submitListener p)).

(** [target.textContent = s], where [target] may be null. *)
Definition assign_textContent (target : option ref) (s : string) : Script unit :=
  match target with
  | None => throw TypeError
  | Some r => modify (set_textContent r s)
  end.

(** [target.addEventListener('submit', handler)], where [target] may be
    null. *)
Definition addEventListener_submit (target : option ref) : Script unit :=
  match target with
  | None => throw TypeError
  | Some r => modify (λ p, mkPage (objects p) (document p) (observer p) (Some r))
  end.

(** ** script.js, top level *)

(** Lines 1-13: collect the marked elements, build the observer, observe
    each element. *)
Definition revealController (host : Host) : Script unit :=
  revealElements ← gets (querySelectorAll "reveal");
  new_IntersectionObserver host 0.2%Q;;
  forEach revealElements observer_observe.

(** Line 15. The right-hand side is a number; the setter stores its
    decimal string. *)
Definition stampYear (host : Host) : Script unit :=
  year ← gets (getElementById "year");
  assign_textContent year (pretty (fullYear host)).

(** Line 17: look the form up and register the handler of lines 18-21. *)
Definition bindUploadForm : Script unit :=
  form ← gets (querySelector "upload-form");
  addEventListener_submit form.

Definition script (host : Host) : Script unit :=
  revealController host;;
  stampYear host;;
  bindUploadForm.

(** ** The submit handler (script.js lines 17-22) *)

(** [event.preventDefault()]; a submit event is cancelable. *)
Definition preventDefault (event : Event.t) : Event.t :=
  Event.mk (Event.target event) true.

(** The event object is mutated as well as the page, so both are
    returned next to the completion. *)
Definition submitHandler (event : Event.t) (p : Page) : Event.t * Page * Completion unit :=
  let event := preventDefault event in
  match Element_querySelector (Event.target event) "button" p with
  | None => (event, p, Throw TypeError)
  | Some button =>
      let p := set_textContent button "Project Submitted ✓" p in
      let p := set_disabled button true p in
      (event, p, Normal ())
  end.

(** ** The host after load *)

(** Is [t] the element [l] or a descendant of it in the document? *)
Definition onPath (l t : ref) (p : Page) : bool :=
  match subtree l (document p) with
  | Some s => bool_decide (t ∈ elementsOf s)
  | None => false
  end.

(** The host dispatches a submit event at [t]. The script's handler runs
    when its listener sits on [t] or on an ancestor of [t]; an exception
    in the handler is reported and dropped. The default action
    (navigation) follows unless the event was canceled. *)
Definition dispatchSubmit (t : ref) (p : Page) : Page * bool :=
  let event := Event.mk t false in
  match submitListener p with
  | Some l =>
      if onPath l t p
      then let '(event', p', _) := submitHandler event p in
           (p', negb (Event.defaultPrevented event'))
      else (p, true)
  | None => (p, true)
  end.

(** What the host delivers to the page after load. *)
Inductive HostEvent :=
| Intersections (entries : list Entry.t)
| Submit (t : ref).

Definition deliver (p : Page) (ev : HostEvent) : Page :=
  match ev with
  | Intersections entries =>
      match observer p with
      | Some _ => callback entries p
      | None => p
      end
  | Submit t => fst (dispatchSubmit t p)
  end.

(** A run of the page over a sequence of host events. *)
Definition run (evs : list HostEvent) (p : Page) : Page := foldl deliver p evs.

(** Does a batch carry an intersecting entry for [e]? *)
Definition reveals (e : ref) (entries : list Entry.t) : Prop :=
  ∃ entry, entry ∈ entries ∧ Entry.target entry = e ∧ Entry.isIntersecting entry = true.

(** Does a host event carry an intersecting entry for [e]? *)
Definition revealing (e : ref) (ev : HostEvent) : Prop :=
  match ev with
  | Intersections entries => reveals e entries
  | Submit _ => False
  end.

(** Modelled from the spec: the host's side of the threshold, which is
    no code of the script. The specification's glossary calls the
    threshold the "minimum fraction (0-1) of an element's area that must
    be within the viewport to count as intersecting": an entry the host
    reports as intersecting carries a ratio of at least the observer's
    threshold. Rationals stand for the host's floating-point numbers.
    The check is a condition on the entries a run delivers; the script
    itself never reads the ratio. *)
Definition honoursThreshold (o : IntersectionObserver) (entry : Entry.t) : bool :=
  implb (Entry.isIntersecting entry)
        (Qle_bool (threshold o) (Entry.intersectionRatio entry)).

(** Modelled from the spec: a host event all of whose entries honour
    the threshold of observer [o]. *)
Definition hostHonoursThreshold (o : IntersectionObserver) (ev : HostEvent) : bool :=
  match ev with
  | Intersections entries => forallb (honoursThreshold o) entries
  | Submit _ => true
  end.

(** ** A sample page

    Three marked sections, an upload form with its button and the year
    placeholder: the markup the script expects. *)

Definition sampleObjects : gmap ref Element :=
  list_to_map
    [ (0, mkElement "body" EmptyString [] false);
      (1, mkElement "section" EmptyString ["reveal"] false);
      (2, mkElement "section" EmptyString ["reveal"] false);
      (3, mkElement "section" EmptyString ["card"; "reveal"] false);
      (4, mkElement "form" EmptyString ["upload-form"] false);
      (5, mkElement "button" EmptyString [] false);
      (6, mkElement "span" "year" [] false) ].

Definition sampleDocument : Node :=
  Elem 0 [ Elem 1 [Text "A"]; Elem 2 [Text "B"]; Elem 3 [Text "C"];
           Elem 4 [Elem 5 [Text "Submit Project"]];
           Elem 6 [] ].

Definition samplePage : Page := mkPage sampleObjects sampleDocument None None.

Definition sampleHost : Host := mkHost true 2026.

(** The sample page after the script has run. *)
Definition loadedPage : Page := fst (script sampleHost samplePage).

(** The sample page without the year placeholder, and without the form. *)
Definition noYearPage : Page :=
  mkPage sampleObjects
         (Elem 0 [ Elem 1 [Text "A"]; Elem 2 [Text "B"]; Elem 3 [Text "C"];
                   Elem 4 [Elem 5 [Text "Submit Project"]] ])
         None None.

Definition noFormPage : Page :=
  mkPage sampleObjects
         (Elem 0 [ Elem 1 [Text "A"]; Elem 2 [Text "B"]; Elem 3 [Text "C"];
                   Elem 6 [] ])
         None None.

(** A page without marked elements: the form and the year only. *)
Definition plainPage : Page :=
  mkPage (list_to_map
            [ (0, mkElement "body" EmptyString [] false);
              (4, mkElement "form" EmptyString ["upload-form"] false);
              (5, mkElement "button" EmptyString [] false);
              (6, mkElement "span" "year" [] false) ])
         (Elem 0 [ Elem 4 [Elem 5 [Text "Submit Project"]]; Elem 6 [] ])
         None None.

(** A host without IntersectionObserver. *)
Definition legacyHost : Host := mkHost false 2026.

(** The sample page with a form that holds no button. *)
Definition buttonlessPage : Page :=
  mkPage sampleObjects
         (Elem 0 [ Elem 1 [Text "A"]; Elem 2 [Text "B"]; Elem 3 [Text "C"];
                   Elem 4 [Text "Drop your file here"];
                   Elem 6 [] ])
         None None.

(** ** The four-digit year, as the specification words it

    Not taken from the script: the year written with exactly four
    decimal digits, to compare with what the script stores. *)

Definition digit (d : Z) : ascii := ascii_of_nat (48 + Z.to_nat d).

Definition fourDigits (y : Z) : string :=
  String (digit (y / 1000))
    (String (digit (y / 100 mod 10))
       (String (digit (y / 10 mod 10))
          (String (digit (y mod 10)) EmptyString))).

(** * Properties *)

(** ** DOMTokenList.add *)

Lemma DOMTokenList_add_elem token tokens : token ∈ DOMTokenList_add token tokens.
Proof.
  unfold DOMTokenList_add. case_decide; [done|].
  apply elem_of_app. right. by apply list_elem_of_singleton.
Qed.

Lemma DOMTokenList_add_keeps token c tokens :
  c ∈ tokens → c ∈ DOMTokenList_add token tokens.
Proof.
  intros Hc. unfold DOMTokenList_add. case_decide; [done|].
  apply elem_of_app. by left.
Qed.

Lemma DOMTokenList_add_inv token c tokens :
  c ∈ DOMTokenList_add token tokens → c = token ∨ c ∈ tokens.
Proof.
  unfold DOMTokenList_add. case_decide; [by right|].
  intros [Hc|Hc]%elem_of_app; [by right|].
  left. by apply list_elem_of_singleton in Hc.
Qed.

Lemma DOMTokenList_add_present token tokens :
  token ∈ tokens → DOMTokenList_add token tokens = tokens.
Proof. intros Hc. unfold DOMTokenList_add. by case_decide. Qed.

Lemma DOMTokenList_add_idem token tokens :
  DOMTokenList_add token (DOMTokenList_add token tokens) = DOMTokenList_add token tokens.
Proof. apply DOMTokenList_add_present, DOMTokenList_add_elem. Qed.

Lemma DOMTokenList_add_NoDup token tokens :
  NoDup tokens → NoDup (DOMTokenList_add token tokens).
Proof.
  intros Hnd. unfold DOMTokenList_add. case_decide as Hin; [done|].
  apply NoDup_app. split_and!; [done| |apply NoDup_singleton].
  intros x Hx ->%list_elem_of_singleton. contradiction.
Qed.

Lemma Element_classList_add_idem token el :
  Element_classList_add token (Element_classList_add token el)
  = Element_classList_add token el.
Proof. unfold Element_classList_add. simpl. by rewrite DOMTokenList_add_idem. Qed.

(** ** classList.add on the page *)

Lemma classList_add_lookup r token p r' :
  objects (classList_add r token p) !! r'
  = if decide (r = r') then Element_classList_add token <$> objects p !! r'
    else objects p !! r'.
Proof.
  unfold classList_add. simpl. rewrite lookup_alter.
  case_decide; by subst.
Qed.

Lemma classList_add_idem r token p :
  classList_add r token (classList_add r token p) = classList_add r token p.
Proof.
  unfold classList_add. simpl. f_equal.
  apply map_eq. intros i. rewrite !lookup_alter.
  repeat case_decide; try done.
  destruct (objects p !! r); simpl; [|done].
  by rewrite Element_classList_add_idem.
Qed.

(** ** The callback *)

Lemma callback_nil p : callback [] p = p.
Proof. done. Qed.

Lemma callback_cons entry entries p :
  callback (entry :: entries) p = callback entries (onEntry p entry).
Proof. done. Qed.

Lemma callback_app pre post p :
  callback (pre ++ post) p = callback post (callback pre p).
Proof. unfold callback. apply foldl_app. Qed.

Lemma onEntry_frame p entry :
  document (onEntry p entry) = document p
  ∧ observer (onEntry p entry) = observer p
  ∧ submitListener (onEntry p entry) = submitListener p.
Proof. unfold onEntry. by destruct (Entry.isIntersecting entry). Qed.

Lemma callback_frame entries p :
  document (callback entries p) = document p
  ∧ observer (callback entries p) = observer p
  ∧ submitListener (callback entries p) = submitListener p.
Proof.
  revert p. induction entries as [|entry entries IH]; intros p; [done|].
  rewrite callback_cons.
  destruct (IH (onEntry p entry)) as (-> & -> & ->).
  apply onEntry_frame.
Qed.

Lemma reveals_nil e : ¬ reveals e [].
Proof. intros (entry & Hin & _). by apply elem_of_nil in Hin. Qed.

Lemma reveals_cons e entry entries :
  reveals e (entry :: entries)
  ↔ (Entry.target entry = e ∧ Entry.isIntersecting entry = true) ∨ reveals e entries.
Proof.
  unfold reveals. split.
  - intros (x & [->|Hin]%elem_of_cons & Ht & Hi); [by left|].
    right. by exists x.
  - intros [[Ht Hi]|(x & Hin & Ht & Hi)].
    + exists entry. split_and!; [left|done|done].
    + exists x. split_and!; [by right|done|done].
Qed.

#[global] Instance reveals_dec e entries : Decision (reveals e entries).
Proof.
  induction entries as [|entry entries IH].
  - right. apply reveals_nil.
  - destruct (decide (Entry.target entry = e ∧ Entry.isIntersecting entry = true)) as [H|H].
    + left. apply reveals_cons. by left.
    + destruct IH as [IH|IH].
      * left. apply reveals_cons. by right.
      * right. rewrite reveals_cons. tauto.
Defined.

(** What the callback leaves in the store, element by element. *)
Lemma callback_lookup entries p r :
  objects (callback entries p) !! r
  = if decide (reveals r entries)
    then Element_classList_add "visible" <$> objects p !! r
    else objects p !! r.
Proof.
  revert p. induction entries as [|entry entries IH]; intros p.
  - rewrite callback_nil. case_decide as H; [|done]. by apply reveals_nil in H.
  - rewrite callback_cons, IH. unfold onEntry.
    destruct (Entry.isIntersecting entry) eqn:Hi.
    + rewrite classList_add_lookup.
      destruct (decide (Entry.target entry = r)) as [Ht|Ht].
      * rewrite (decide_True (P := reveals r (entry :: entries)))
          by (apply reveals_cons; by left).
        case_decide; [|done].
        destruct (objects p !! r); simpl; [|done].
        by rewrite Element_classList_add_idem.
      * case_decide as H.
        -- rewrite decide_True; [done|]. apply reveals_cons. by right.
        -- rewrite decide_False; [done|]. rewrite reveals_cons. tauto.
    + case_decide as H.
      * rewrite decide_True; [done|]. apply reveals_cons. by right.
      * rewrite decide_False; [done|]. rewrite reveals_cons.
        intros [[_ ?]|?]; [congruence|done].
Qed.

Lemma classListOf_callback entries p r :
  classListOf r (callback entries p)
  = if decide (reveals r entries)
    then DOMTokenList_add "visible" <$> classListOf r p
    else classListOf r p.
Proof.
  unfold classListOf. rewrite callback_lookup.
  case_decide; [|done]. by destruct (objects p !! r).
Qed.

(** ** The submit handler and the other host events *)

Lemma set_disabled_lookup r b p r' :
  objects (set_disabled r b p) !! r'
  = if decide (r = r') then Element_set_disabled b <$> objects p !! r'
    else objects p !! r'.
Proof.
  unfold set_disabled. simpl. rewrite lookup_alter.
  case_decide; by subst.
Qed.

Lemma classListOf_set_disabled r b p r' :
  classListOf r' (set_disabled r b p) = classListOf r' p.
Proof.
  unfold classListOf. rewrite set_disabled_lookup.
  case_decide; [|done]. by destruct (objects p !! r').
Qed.

Lemma classListOf_submitHandler event p r :
  classListOf r (submitHandler event p).1.2 = classListOf r p.
Proof.
  unfold submitHandler.
  destruct (Element_querySelector _ _ _); simpl; [|done].
  by rewrite classListOf_set_disabled.
Qed.

Lemma observer_submitHandler event p :
  observer (submitHandler event p).1.2 = observer p.
Proof. unfold submitHandler. by destruct (Element_querySelector _ _ _). Qed.

Lemma classListOf_dispatchSubmit t p r :
  classListOf r (dispatchSubmit t p).1 = classListOf r p.
Proof.
  unfold dispatchSubmit.
  destruct (submitListener p) as [l|]; [|done].
  destruct (onPath l t p); [|done].
  pose proof (classListOf_submitHandler (Event.mk t false) p r) as H.
  by destruct (submitHandler _ p) as [[ev' p'] c].
Qed.

Lemma observer_dispatchSubmit t p :
  observer (dispatchSubmit t p).1 = observer p.
Proof.
  unfold dispatchSubmit.
  destruct (submitListener p) as [l|]; [|done].
  destruct (onPath l t p); [|done].
  pose proof (observer_submitHandler (Event.mk t false) p) as H.
  by destruct (submitHandler _ p) as [[ev' p'] c].
Qed.

Lemma observer_deliver p ev : observer (deliver p ev) = observer p.
Proof.
  destruct ev as [entries|t]; simpl.
  - destruct (observer p) eqn:Ho; [|done].
    destruct (callback_frame entries p) as (_ & -> & _). done.
  - apply observer_dispatchSubmit.
Qed.

Lemma observer_run evs p : observer (run evs p) = observer p.
Proof.
  revert p. induction evs as [|ev evs IH]; intros p; [done|].
  unfold run in *. simpl. by rewrite IH, observer_deliver.
Qed.

#[global] Instance revealing_dec e ev : Decision (revealing e ev).
Proof. destruct ev; simpl; apply _. Defined.

(** One host event changes the class list of an element in one way
    only: a revealing batch adds 'visible'. *)
Lemma classListOf_deliver p ev r :
  classListOf r (deliver p ev) = classListOf r p
  ∨ (revealing r ev
     ∧ classListOf r (deliver p ev) = DOMTokenList_add "visible" <$> classListOf r p).
Proof.
  destruct ev as [entries|t]; simpl.
  - destruct (observer p); [|by left].
    rewrite classListOf_callback. case_decide; [by right|by left].
  - left. apply classListOf_dispatchSubmit.
Qed.

Lemma classList_contains_deliver p ev r c :
  classList_contains r c p → classList_contains r c (deliver p ev).
Proof.
  intros (tokens & Hl & Hc). unfold classList_contains.
  destruct (classListOf_deliver p ev r) as [->|[_ ->]].
  - by exists tokens.
  - rewrite Hl. simpl. eexists. split; [done|]. by apply DOMTokenList_add_keeps.
Qed.

Lemma classList_contains_run evs p r c :
  classList_contains r c p → classList_contains r c (run evs p).
Proof.
  revert p. induction evs as [|ev evs IH]; intros p Hc; [done|].
  unfold run in *. simpl. by apply IH, classList_contains_deliver.
Qed.

Lemma classListOf_is_Some_run evs p r :
  is_Some (classListOf r p) → is_Some (classListOf r (run evs p)).
Proof.
  revert p. induction evs as [|ev evs IH]; intros p Hs; [done|].
  unfold run in *. simpl. apply IH.
  destruct (classListOf_deliver p ev r) as [->|[_ ->]]; [done|].
  by apply fmap_is_Some.
Qed.

Lemma run_app evs1 evs2 p : run (evs1 ++ evs2) p = run evs2 (run evs1 p).
Proof. unfold run. apply foldl_app. Qed.

(** ** Lemmas on the node tree *)

(** Induction on the tree with the hypothesis for every child. *)
Lemma Node_forall_ind (P : Node → Prop) :
  (∀ data, P (Text data)) →
  (∀ r kids, Forall P kids → P (Elem r kids)) →
  ∀ n, P n.
Proof.
  intros HText HElem. fix IH 1. intros [data|r kids].
  - apply HText.
  - apply HElem. induction kids as [|k kids IHkids]; constructor.
    + apply IH.
    + apply IHkids.
Qed.

Lemma firstSome_None {A B} (f : A → option B) (l : list A) :
  Forall (λ a, f a = None) l → firstSome f l = None.
Proof. induction 1 as [|a l Ha _ IH]; simpl; [done|]. by rewrite Ha. Qed.

Lemma firstSome_Some {A B} (f : A → option B) (l : list A) (b : B) :
  firstSome f l = Some b → ∃ a, a ∈ l ∧ f a = Some b.
Proof.
  induction l as [|a l IH]; simpl; [done|].
  destruct (f a) as [b'|] eqn:Ha.
  - intros [= <-]. exists a. split; [left|done].
  - intros (a' & Hin & Hf)%IH. exists a'. split; [by right|done].
Qed.

Lemma subtree_absent r n : r ∉ elementsOf n → subtree r n = None.
Proof.
  induction n as [data|r' kids IH] using Node_forall_ind; [done|].
  simpl. intros Hr. apply not_elem_of_cons in Hr as [Hne Hr].
  rewrite decide_False by done.
  apply firstSome_None. rewrite Forall_forall in IH |- *.
  intros k Hk. apply IH; [done|].
  intros Hin. apply Hr, list_elem_of_bind. by exists k.
Qed.

Lemma replaceChildren_absent r new n :
  r ∉ elementsOf n → replaceChildren r new n = n.
Proof.
  induction n as [data|r' kids IH] using Node_forall_ind; [done|].
  simpl. intros Hr. apply not_elem_of_cons in Hr as [Hne Hr].
  rewrite decide_False by done. f_equal.
  rewrite <- (list_fmap_id kids) at 2. apply list_fmap_ext.
  rewrite Forall_forall in IH.
  intros i k Hk%list_elem_of_lookup_2. apply IH; [done|].
  intros Hin. apply Hr, list_elem_of_bind. by exists k.
Qed.

(** After its children are replaced, an element of the tree is found
    with exactly the new children. *)
Lemma subtree_replaceChildren r new n :
  r ∈ elementsOf n → subtree r (replaceChildren r new n) = Some (Elem r new).
Proof.
  induction n as [data|r' kids IH] using Node_forall_ind.
  - by intros ?%elem_of_nil.
  - simpl. destruct (decide (r' = r)) as [->|Hne].
    + intros _. simpl. by rewrite decide_True.
    + intros [?|Hin]%elem_of_cons; [congruence|].
      simpl. rewrite decide_False by done.
      induction IH as [|k kids Hk _ IHkids]; [by apply elem_of_nil in Hin|].
      rewrite bind_cons in Hin. rewrite fmap_cons. simpl.
      destruct (decide (r ∈ elementsOf k)) as [Hrk|Hrk].
      * by rewrite Hk.
      * rewrite replaceChildren_absent, subtree_absent by done.
        apply IHkids. by apply elem_of_app in Hin as [?|?].
Qed.

Lemma subtree_root r n s : subtree r n = Some s → ∃ kids, s = Elem r kids.
Proof.
  induction n as [data|r' kids IH] using Node_forall_ind; [done|].
  simpl. case_decide as Hr.
  - intros [= <-]. subst. by exists kids.
  - intros (k & Hk & Hs)%firstSome_Some.
    rewrite Forall_forall in IH. by apply (IH k).
Qed.

Lemma subtree_elementsOf r n s x :
  subtree r n = Some s → x ∈ elementsOf s → x ∈ elementsOf n.
Proof.
  induction n as [data|r' kids IH] using Node_forall_ind; [done|].
  simpl. case_decide as Hr.
  - by intros [= <-].
  - intros (k & Hk & Hs)%firstSome_Some Hx.
    rewrite Forall_forall in IH.
    right. apply list_elem_of_bind. exists k. split; [|done]. by apply IH.
Qed.

Lemma descendants_elementsOf r n x :
  x ∈ descendants r n → x ∈ elementsOf n.
Proof.
  unfold descendants. destruct (subtree r n) as [[data|r' kids]|] eqn:Hs;
    try by intros ?%elem_of_nil.
  intros Hx. apply (subtree_elementsOf r n (Elem r' kids)); [done|].
  simpl. by right.
Qed.

(** Replacing children by text removes elements and adds none. *)
Lemma replaceChildren_elementsOf r new n x :
  new ≫= elementsOf = [] →
  x ∈ elementsOf (replaceChildren r new n) → x ∈ elementsOf n.
Proof.
  intros Hnew.
  induction n as [data|r' kids IH] using Node_forall_ind; [done|].
  simpl. case_decide as Hr.
  - simpl. rewrite Hnew. intros ->%list_elem_of_singleton. left.
  - simpl. intros [->|Hx]%elem_of_cons; [left|]. right.
    apply list_elem_of_bind in Hx as (k' & Hx & (k & -> & Hk)%list_elem_of_fmap).
    rewrite Forall_forall in IH.
    apply list_elem_of_bind. exists k. split; [|done]. by apply IH.
Qed.

Lemma textOf_single r s :
  textOf (Elem r (if decide (s = EmptyString) then [] else [Text s])) = s.
Proof. case_decide; by subst. Qed.

(** Reading [textContent] back after it was set. *)
Lemma textContent_set_textContent r s p :
  r ∈ elementsOf (document p) → textContent r (set_textContent r s p) = Some s.
Proof.
  intros Hr. unfold textContent, set_textContent. simpl.
  rewrite subtree_replaceChildren by done. simpl. f_equal. apply (textOf_single r).
Qed.

(** ** Selectors *)

Lemma getElementById_elem i p r :
  getElementById i p = Some r → r ∈ elementsOf (document p).
Proof.
  unfold getElementById. intros Hh%head_Some_elem_of.
  by apply list_elem_of_filter in Hh as [_ ?].
Qed.

Lemma Element_querySelector_elem t tag p r :
  Element_querySelector t tag p = Some r →
  r ∈ elementsOf (document p) ∧ ∃ el, objects p !! r = Some el ∧ localName el = tag.
Proof.
  unfold Element_querySelector. intros Hh%head_Some_elem_of.
  apply list_elem_of_filter in Hh as [Hn Hd]. split.
  - by apply descendants_elementsOf in Hd.
  - unfold hasLocalName in Hn. destruct (objects p !! r) as [el|]; [|done].
    exists el. split; [done|]. by apply bool_decide_unpack in Hn.
Qed.

Lemma filter_empty {A} (P : A → Prop) `{∀ x, Decision (P x)} (l : list A) :
  filter P l = [] ↔ ∀ x, x ∈ l → ¬ P x.
Proof.
  split.
  - intros Hf x Hx HP. by apply (filter_nil_not_elem_of P l x).
  - intros Hall. destruct (filter P l) as [|x k] eqn:Hf; [done|].
    assert (x ∈ filter P l) as [HP Hx]%list_elem_of_filter by (rewrite Hf; left).
    by destruct (Hall x).
Qed.

(** A selector that finds nothing still finds nothing after elements
    were removed from the tree. *)
Lemma querySelector_None_shrink c p q :
  objects q = objects p →
  (∀ x, x ∈ elementsOf (document q) → x ∈ elementsOf (document p)) →
  querySelector c p = None → querySelector c q = None.
Proof.
  unfold querySelector, querySelectorAll, hasClass. intros Ho Hsub.
  rewrite !head_None, !filter_empty, Ho. intros Hp x Hx. by apply Hp, Hsub.
Qed.

(** ** The top-level script *)

Lemma script_unfold host p :
  script host p
  = match revealController host p with
    | (p1, Normal _) =>
        match stampYear host p1 with
        | (p2, Normal _) => bindUploadForm p2
        | (p2, Throw e) => (p2, Throw e)
        end
    | (p1, Throw e) => (p1, Throw e)
    end.
Proof. reflexivity. Qed.

Lemma stampYear_unfold host p :
  stampYear host p
  = match getElementById "year" p with
    | Some y => (set_textContent y (pretty (fullYear host)) p, Normal ())
    | None => (p, Throw TypeError)
    end.
Proof.
  unfold stampYear, gets, mbind, Script_bind.
  by destruct (getElementById "year" p).
Qed.

Lemma bindUploadForm_unfold p :
  bindUploadForm p
  = match querySelector "upload-form" p with
    | Some form => (mkPage (objects p) (document p) (observer p) (Some form), Normal ())
    | None => (p, Throw TypeError)
    end.
Proof.
  unfold bindUploadForm, gets, mbind, Script_bind.
  by destruct (querySelector "upload-form" p).
Qed.

(** The observation loop registers the elements one after the other. *)
Lemma forEach_observe l p o :
  observer p = Some o →
  forEach l observer_observe p
  = (mkPage (objects p) (document p)
            (Some (foldl (λ o element, observe element o) o l)) (submitListener p),
     Normal ()).
Proof.
  revert p o. induction l as [|element l IH]; intros p o Ho.
  - simpl. destruct p; simpl in *. by subst.
  - simpl. unfold mbind, Script_bind. simpl.
    rewrite (IH _ (observe element o)); [done|]. simpl. by rewrite Ho.
Qed.

Lemma revealController_defined host p :
  intersectionObserverDefined host = true →
  revealController host p
  = (mkPage (objects p) (document p)
            (Some (foldl (λ o element, observe element o) (mkObserver 0.2 [])
                         (querySelectorAll "reveal" p)))
            (submitListener p),
     Normal ()).
Proof.
  intros Hd. unfold revealController, new_IntersectionObserver, gets, modify, mbind, Script_bind.
  rewrite Hd. by erewrite forEach_observe.
Qed.

Lemma revealController_undefined host p :
  intersectionObserverDefined host = false →
  revealController host p = (p, Throw ReferenceError).
Proof.
  intros Hd. unfold revealController, new_IntersectionObserver, gets, throw, mbind, Script_bind.
  by rewrite Hd.
Qed.

Lemma observe_all l o :
  threshold (foldl (λ o element, observe element o) o l) = threshold o
  ∧ (∀ r, r ∈ observationTargets (foldl (λ o element, observe element o) o l)
          ↔ r ∈ observationTargets o ∨ r ∈ l)
  ∧ (NoDup (observationTargets o) →
     NoDup (observationTargets (foldl (λ o element, observe element o) o l))).
Proof.
  revert o. induction l as [|element l IH]; intros o.
  - simpl. split_and!; [done| |done]. intros r. rewrite elem_of_nil. tauto.
  - simpl. destruct (IH (observe element o)) as (Ht & Hin & Hnd).
    unfold observe in *. case_decide as He; simpl in *.
    + split_and!; [done| |done]. intros r. rewrite Hin, elem_of_cons.
      split; [tauto|]. intros [?|[->|?]]; tauto.
    + split_and!; [done| |].
      * intros r. rewrite Hin, elem_of_app, list_elem_of_singleton, elem_of_cons. tauto.
      * intros Ho. apply Hnd, NoDup_app. split_and!; [done| |apply NoDup_singleton].
        intros x Hx ->%list_elem_of_singleton. contradiction.
Qed.

(** Lines 15-22 leave the store and the observer alone, and change the
    tree by text only. *)
Lemma stampYear_frame host p :
  objects (stampYear host p).1 = objects p
  ∧ observer (stampYear host p).1 = observer p
  ∧ submitListener (stampYear host p).1 = submitListener p
  ∧ (∀ x, x ∈ elementsOf (document (stampYear host p).1) → x ∈ elementsOf (document p)).
Proof.
  rewrite stampYear_unfold. destruct (getElementById "year" p) as [y|]; [|done].
  simpl. split_and!; try done.
  intros x. apply replaceChildren_elementsOf. by case_decide.
Qed.

Lemma bindUploadForm_frame p :
  objects (bindUploadForm p).1 = objects p
  ∧ observer (bindUploadForm p).1 = observer p
  ∧ document (bindUploadForm p).1 = document p.
Proof.
  rewrite bindUploadForm_unfold. by destruct (querySelector "upload-form" p).
Qed.

(** The script writes to no element object, on any host. *)
Lemma script_objects host p : objects (script host p).1 = objects p.
Proof.
  rewrite script_unfold.
  destruct (intersectionObserverDefined host) eqn:Hd.
  - rewrite revealController_defined by done.
    set (p1 := mkPage _ _ _ _).
    pose proof (stampYear_frame host p1) as (Ho1 & _).
    destruct (stampYear host p1) as [p2 [[]|e]]; simpl in *; [|done].
    pose proof (bindUploadForm_frame p2) as (Ho2 & _). by rewrite Ho2.
  - by rewrite revealController_undefined.
Qed.

(** The observer the script leaves, whether or not a later statement
    throws. *)
Lemma script_observer host p :
  intersectionObserverDefined host = true →
  observer (script host p).1
  = Some (foldl (λ o element, observe element o) (mkObserver 0.2 [])
                (querySelectorAll "reveal" p)).
Proof.
  intros Hd. rewrite script_unfold, revealController_defined by done.
  set (p1 := mkPage _ _ _ _).
  pose proof (stampYear_frame host p1) as (_ & Ho1 & _).
  destruct (stampYear host p1) as [p2 [[]|e]]; simpl in *; [|done].
  pose proof (bindUploadForm_frame p2) as (_ & Ho2 & _). by rewrite Ho2.
Qed.

(** X1. On a host without IntersectionObserver line 2 throws: nothing of
    the script takes effect, and no run of host events reveals anything. *)
Lemma unsupported_host_reveals_nothing host p e evs :
  intersectionObserverDefined host = false →
  observer p = None →
  script host p = (p, Throw ReferenceError)
  ∧ classListOf e (run evs (script host p).1) = classListOf e p.
Proof.
  intros Hd Ho.
  assert (script host p = (p, Throw ReferenceError)) as Hs.
  { by rewrite script_unfold, revealController_undefined. }
  split; [done|]. rewrite Hs. simpl.
  revert p Ho Hs. induction evs as [|ev evs IH]; intros p Ho Hs; [done|].
  unfold run in *. simpl.
  assert (classListOf e (deliver p ev) = classListOf e p) as <-.
  { destruct ev as [entries|t]; simpl; [by rewrite Ho|].
    apply classListOf_dispatchSubmit. }
  apply IH.
  - by rewrite observer_deliver.
  - rewrite script_unfold, revealController_undefined; done.
Qed.

(** The year stamp, whatever the year is and whether or not the form is
    found afterwards. *)
Lemma script_stamps_year host p y :
  intersectionObserverDefined host = true →
  getElementById "year" p = Some y →
  textContent y (script host p).1 = Some (pretty (fullYear host)).
Proof.
  intros Hd Hy. rewrite script_unfold, revealController_defined by done.
  set (p1 := mkPage _ _ _ _).
  assert (getElementById "year" p1 = Some y) as Hy1 by done.
  rewrite stampYear_unfold, Hy1.
  set (p2 := set_textContent _ _ _).
  assert (textContent y p2 = Some (pretty (fullYear host))) as Ht.
  { apply textContent_set_textContent. by apply getElementById_elem in Hy1. }
  pose proof (bindUploadForm_frame p2) as (_ & _ & Hdoc).
  unfold textContent in *. by rewrite Hdoc.
Qed.

Lemma pretty_fourDigits (y : Z) :
  (1000 ≤ y ≤ 9999)%Z → pretty y = fourDigits y.
Proof.
  intros Hy.
  assert (Forall (λ z : Z, pretty z = fourDigits z) (seqZ 1000 9000)) as Hall.
  { apply (bool_decide_unpack _). vm_compute. exact I. }
  rewrite Forall_forall in Hall. apply Hall, elem_of_seqZ. lia.
Qed.

(** ** The reveal state machine *)

(** C1. Visibility is monotonic: in any run of host events in which a
    batch with an intersecting entry for [e] is delivered to the
    observer's callback, [e] carries 'visible' right after that batch
    and after every continuation of the run, whatever the later events
    are (entries for [e] that are not intersecting, entries for other
    elements, form submissions). *)
Theorem visible_is_monotonic (p : Page) (e : ref)
    (before later : list HostEvent) (entries : list Entry.t) :
  is_Some (objects p !! e) →
  is_Some (observer p) →
  reveals e entries →
  classList_contains e "visible" (run (before ++ [Intersections entries]) p)
  ∧ classList_contains e "visible" (run (before ++ Intersections entries :: later) p).
Proof.
  intros He Ho Hr.
  assert (classList_contains e "visible" (run (before ++ [Intersections entries]) p)) as Hnow.
  { rewrite run_app. set (q := run before p).
    assert (is_Some (classListOf e q)) as [tokens Ht].
    { apply classListOf_is_Some_run. unfold classListOf. by apply fmap_is_Some. }
    assert (is_Some (observer q)) as [o Hq].
    { unfold q. by rewrite observer_run. }
    unfold run. simpl. rewrite Hq. exists (DOMTokenList_add "visible" tokens).
    rewrite classListOf_callback, decide_True, Ht by done.
    split; [done|apply DOMTokenList_add_elem]. }
  split; [done|].
  replace (before ++ Intersections entries :: later)
    with ((before ++ [Intersections entries]) ++ later) by by rewrite <- app_assoc.
  rewrite run_app. by apply classList_contains_run.
Qed.

Lemma visible_is_monotonic_witness :
  classList_contains 1 "visible"
    (run ([Intersections [Entry.mk 2 false 0]] ++ [Intersections [Entry.mk 1 true 0.25]])
         loadedPage)
  ∧ classList_contains 1 "visible"
      (run ([Intersections [Entry.mk 2 false 0]]
              ++ Intersections [Entry.mk 1 true 0.25]
                 :: [Intersections [Entry.mk 1 false 0]; Submit 4])
           loadedPage).
Proof.
  apply visible_is_monotonic.
  - eexists. vm_compute. reflexivity.
  - eexists. vm_compute. reflexivity.
  - exists (Entry.mk 1 true 0.25). split; [apply list_elem_of_here|]. split; reflexivity.
Defined.

(** C2. An entry that is not intersecting is ignored: the arrow function
    returns the page as it was, a batch holding only that entry changes
    nothing, inside a batch the entry can be dropped, and delivering it
    through the host leaves the whole page as it was, whatever the
    element's class list is. *)
Theorem not_intersecting_is_ignored (p : Page) (entry : Entry.t)
    (pre post : list Entry.t) :
  Entry.isIntersecting entry = false →
  onEntry p entry = p
  ∧ callback [entry] p = p
  ∧ callback (pre ++ entry :: post) p = callback (pre ++ post) p
  ∧ deliver p (Intersections [entry]) = p.
Proof.
  intros Hi.
  assert (∀ q, onEntry q entry = q) as Hq.
  { intros q. unfold onEntry. by rewrite Hi. }
  split_and!.
  - apply Hq.
  - rewrite callback_cons, Hq. apply callback_nil.
  - by rewrite !callback_app, callback_cons, Hq.
  - unfold deliver. destruct (observer p); [|done].
    rewrite callback_cons, Hq. apply callback_nil.
Qed.

Lemma not_intersecting_is_ignored_witness :
  let p := run [Intersections [Entry.mk 1 true 0.25]] loadedPage in
  let entry := Entry.mk 1 false 0 in
  onEntry p entry = p
  ∧ callback [entry] p = p
  ∧ callback ([Entry.mk 2 true 0.5] ++ entry :: [Entry.mk 3 false 0.1]) p
    = callback ([Entry.mk 2 true 0.5] ++ [Entry.mk 3 false 0.1]) p
  ∧ deliver p (Intersections [entry]) = p.
Proof.
  intros p entry.
  apply (not_intersecting_is_ignored p entry [Entry.mk 2 true 0.5] [Entry.mk 3 false 0.1]).
  reflexivity.
Defined.

(** C4. Revealing is idempotent: a second intersecting entry for the
    same element, in a second batch or in the same batch, leaves the
    page exactly as the first one left it; the class list then holds
    'visible', and holds no token twice when it held none twice before. *)
Theorem reveal_is_idempotent (p : Page) (e : ref) (entry entry' : Entry.t)
    (tokens : list string) :
  Entry.target entry = e → Entry.isIntersecting entry = true →
  Entry.target entry' = e → Entry.isIntersecting entry' = true →
  classListOf e p = Some tokens → NoDup tokens →
  callback [entry'] (callback [entry] p) = callback [entry] p
  ∧ callback [entry; entry'] p = callback [entry] p
  ∧ ∃ tokens', classListOf e (callback [entry; entry'] p) = Some tokens'
               ∧ "visible" ∈ tokens' ∧ NoDup tokens'
               ∧ classListOf e (callback [entry] p) = Some tokens'.
Proof.
  intros Ht Hi Ht' Hi' Hl Hnd.
  assert (callback [entry; entry'] p = callback [entry] p) as Heq.
  { rewrite !callback_cons, !callback_nil. unfold onEntry.
    rewrite Hi, Hi', Ht, Ht'. apply classList_add_idem. }
  split_and!; [by rewrite <- Heq at 2|done|].
  exists (DOMTokenList_add "visible" tokens).
  assert (reveals e [entry]) as Hr.
  { exists entry. split_and!; [apply list_elem_of_here|done|done]. }
  rewrite Heq, classListOf_callback, decide_True, Hl by done.
  split_and!; [done|apply DOMTokenList_add_elem|by apply DOMTokenList_add_NoDup|done].
Qed.

Lemma reveal_is_idempotent_witness :
  let entry := Entry.mk 3 true 0.25 in
  let entry' := Entry.mk 3 true 1 in
  callback [entry'] (callback [entry] loadedPage) = callback [entry] loadedPage
  ∧ callback [entry; entry'] loadedPage = callback [entry] loadedPage
  ∧ ∃ tokens', classListOf 3 (callback [entry; entry'] loadedPage) = Some tokens'
               ∧ "visible" ∈ tokens' ∧ NoDup tokens'
               ∧ classListOf 3 (callback [entry] loadedPage) = Some tokens'.
Proof.
  intros entry entry'.
  apply (reveal_is_idempotent loadedPage 3 entry entry' ["card"; "reveal"]);
    try reflexivity.
  apply (bool_decide_unpack _). vm_compute. exact I.
Defined.

(** C5. An element that is never the target of an intersecting entry
    never acquires 'visible': if it lacks the class before a run of host
    events none of which carries an intersecting entry for it, it lacks
    the class after the run, however long the run is; and it still does
    when the script itself is run first, on any host. *)
Theorem hidden_until_revealed (host : Host) (p : Page) (e : ref) (evs : list HostEvent) :
  ¬ classList_contains e "visible" p →
  Forall (λ ev, ¬ revealing e ev) evs →
  ¬ classList_contains e "visible" (run evs p)
  ∧ ¬ classList_contains e "visible" (run evs (script host p).1).
Proof.
  intros Hh Hevs.
  assert (∀ q, classListOf e (run evs q) = classListOf e q) as Heq.
  { induction Hevs as [|ev evs Hev _ IH]; intros q; [done|].
    assert (classListOf e (deliver q ev) = classListOf e q) as Hd.
    { destruct (classListOf_deliver q ev e) as [?|[? _]]; done. }
    unfold run in *. simpl. by rewrite IH. }
  unfold classList_contains in *. rewrite !Heq.
  split; [done|]. unfold classListOf in *. by rewrite script_objects.
Qed.

Lemma hidden_until_revealed_witness :
  let evs := [Intersections [Entry.mk 1 true 0.25; Entry.mk 2 false 0.1]; Submit 4;
              Intersections [Entry.mk 1 false 0; Entry.mk 3 true 0.3]] in
  ¬ classList_contains 2 "visible" (run evs samplePage)
  ∧ ¬ classList_contains 2 "visible" (run evs (script sampleHost samplePage).1).
Proof.
  intros evs. apply hidden_until_revealed.
  - intros (tokens & Hl & Hin). vm_compute in Hl. injection Hl as <-.
    revert Hin. apply (bool_decide_unpack _). vm_compute. exact I.
  - apply (bool_decide_unpack _). vm_compute. exact I.
Defined.

(** C10. Frame of the callback. For every batch: the object of an
    element that is the target of an intersecting entry is its old
    object with 'visible' added to the class list by [classList.add];
    every other object is the old object; no element loses a class; the
    store gains and loses no object; the tree, the observer and the
    listener are not touched. *)
Theorem callback_only_adds_visible (entries : list Entry.t) (p : Page) :
  (∀ r, reveals r entries →
        objects (callback entries p) !! r
        = Element_classList_add "visible" <$> objects p !! r)
  ∧ (∀ r, ¬ reveals r entries → objects (callback entries p) !! r = objects p !! r)
  ∧ (∀ r c, classList_contains r c p → classList_contains r c (callback entries p))
  ∧ (∀ r c, classList_contains r c (callback entries p) →
            classList_contains r c p ∨ (c = "visible" ∧ reveals r entries))
  ∧ dom (objects (callback entries p)) = dom (objects p)
  ∧ document (callback entries p) = document p
  ∧ observer (callback entries p) = observer p
  ∧ submitListener (callback entries p) = submitListener p.
Proof.
  split_and!; try apply callback_frame.
  - intros r Hr. by rewrite callback_lookup, decide_True.
  - intros r Hr. by rewrite callback_lookup, decide_False.
  - intros r c (tokens & Hl & Hc). unfold classList_contains.
    rewrite classListOf_callback. case_decide; [|by exists tokens].
    rewrite Hl. eexists. split; [done|]. by apply DOMTokenList_add_keeps.
  - intros r c (tokens' & Hl & Hc). revert Hl.
    rewrite classListOf_callback. case_decide as Hr; intros Hl.
    + destruct (classListOf r p) as [tokens|] eqn:Ho; [|done].
      injection Hl as <-. apply DOMTokenList_add_inv in Hc as [->|Hc].
      * by right.
      * left. by exists tokens.
    + left. by exists tokens'.
  - apply set_eq. intros r. rewrite !elem_of_dom, callback_lookup.
    case_decide; [|done]. by rewrite fmap_is_Some.
Qed.

(** ** The one-shot effects *)

(** C7. When the host defines IntersectionObserver and the document has
    an element with id 'year', the text content of that element after
    the script has run is the decimal string of the host's current
    year; for a year from 1000 to 9999 that string is the year written
    with four digits. *)
Theorem year_is_stamped (host : Host) (p : Page) (y : ref) :
  intersectionObserverDefined host = true →
  getElementById "year" p = Some y →
  (1000 ≤ fullYear host ≤ 9999)%Z →
  textContent y (script host p).1 = Some (pretty (fullYear host))
  ∧ textContent y (script host p).1 = Some (fourDigits (fullYear host))
  ∧ String.length (pretty (fullYear host)) = 4.
Proof.
  intros Hd Hy Hrange.
  pose proof (script_stamps_year host p y Hd Hy) as Ht.
  split_and!; [done| |]; rewrite pretty_fourDigits in * by done; done.
Qed.

Lemma year_is_stamped_witness :
  textContent 6 (script sampleHost samplePage).1 = Some (pretty 2026%Z)
  ∧ textContent 6 (script sampleHost samplePage).1 = Some (fourDigits 2026)
  ∧ String.length (pretty 2026%Z) = 4.
Proof.
  apply (year_is_stamped sampleHost samplePage 6).
  - reflexivity.
  - vm_compute. reflexivity.
  - simpl. lia.
Defined.

(** C6. A submit event that reaches the script's listener, dispatched
    at a target whose first button descendant is [button]: the handler
    completes, the event is canceled so that no navigation follows, the
    button's text content is 'Project Submitted ✓', the button is
    disabled, and nothing else changes: the store differs in the
    button's disabled flag only, the tree in the button's children
    only, the observer and the listener not at all. *)
Theorem submit_marks_button (p : Page) (form t button : ref) :
  submitListener p = Some form →
  onPath form t p = true →
  Element_querySelector t "button" p = Some button →
  (dispatchSubmit t p).2 = false
  ∧ submitHandler (Event.mk t false) p = (Event.mk t true, (dispatchSubmit t p).1, Normal ())
  ∧ textContent button (dispatchSubmit t p).1 = Some "Project Submitted ✓"
  ∧ disabled <$> objects (dispatchSubmit t p).1 !! button = Some true
  ∧ objects (dispatchSubmit t p).1 = alter (Element_set_disabled true) button (objects p)
  ∧ document (dispatchSubmit t p).1
    = replaceChildren button [Text "Project Submitted ✓"] (document p)
  ∧ observer (dispatchSubmit t p).1 = observer p
  ∧ submitListener (dispatchSubmit t p).1 = submitListener p.
Proof.
  intros Hl Hpath Hb.
  destruct (Element_querySelector_elem _ _ _ _ Hb) as (Hin & el & Hel & _).
  unfold dispatchSubmit. rewrite Hl, Hpath.
  unfold submitHandler. simpl. rewrite Hb. simpl.
  split_and!; try done.
  - unfold textContent. simpl. by rewrite subtree_replaceChildren.
  - by rewrite lookup_alter_eq, Hel.
Qed.

Lemma submit_marks_button_witness :
  (dispatchSubmit 4 loadedPage).2 = false
  ∧ submitHandler (Event.mk 4 false) loadedPage
    = (Event.mk 4 true, (dispatchSubmit 4 loadedPage).1, Normal ())
  ∧ textContent 5 (dispatchSubmit 4 loadedPage).1 = Some "Project Submitted ✓"
  ∧ disabled <$> objects (dispatchSubmit 4 loadedPage).1 !! 5 = Some true
  ∧ objects (dispatchSubmit 4 loadedPage).1
    = alter (Element_set_disabled true) 5 (objects loadedPage)
  ∧ document (dispatchSubmit 4 loadedPage).1
    = replaceChildren 5 [Text "Project Submitted ✓"] (document loadedPage)
  ∧ observer (dispatchSubmit 4 loadedPage).1 = observer loadedPage
  ∧ submitListener (dispatchSubmit 4 loadedPage).1 = submitListener loadedPage.
Proof.
  apply (submit_marks_button loadedPage 4 4 5); vm_compute; reflexivity.
Defined.

(** C3, as the specification states it, fails: on the sample page
    without the year placeholder the selector yields null and the
    script ends in an uncaught TypeError instead of completing. *)
Lemma missing_year_is_not_tolerated :
  getElementById "year" noYearPage = None
  ∧ (script sampleHost noYearPage).2 = Throw TypeError
  ∧ (script sampleHost noYearPage).2 ≠ Normal ().
Proof. split_and!; [vm_compute; reflexivity..|discriminate]. Qed.

(** The same for the page without the upload form: the year is stamped,
    then the form lookup yields null and line 17 throws. *)
Lemma missing_form_is_not_tolerated :
  querySelector "upload-form" noFormPage = None
  ∧ (script sampleHost noFormPage).2 = Throw TypeError
  ∧ textContent 6 (script sampleHost noFormPage).1 = Some "2026".
Proof. split_and!; vm_compute; reflexivity. Qed.

(** C3, amended. On a host that defines IntersectionObserver, when the
    selector for the year placeholder or the one for the upload form
    yields no node, the effect on the missing target is not attempted,
    but the script throws a TypeError at that statement and stops: no
    submit listener is registered in either case, the store is as it
    was, and with the year placeholder missing the tree is as it was. *)
Theorem missing_target_throws (host : Host) (p : Page) :
  intersectionObserverDefined host = true →
  getElementById "year" p = None ∨ querySelector "upload-form" p = None →
  (script host p).2 = Throw TypeError
  ∧ submitListener (script host p).1 = submitListener p
  ∧ objects (script host p).1 = objects p
  ∧ (getElementById "year" p = None → document (script host p).1 = document p).
Proof.
  intros Hd Hmissing.
  rewrite script_unfold, revealController_defined by done.
  set (p1 := mkPage _ _ _ _).
  assert (getElementById "year" p1 = getElementById "year" p) as Hy1 by done.
  assert (querySelector "upload-form" p1 = querySelector "upload-form" p) as Hf1 by done.
  rewrite stampYear_unfold, Hy1.
  destruct (getElementById "year" p) as [y|] eqn:Hy; [|done].
  destruct Hmissing as [?|Hform]; [done|].
  set (p2 := set_textContent _ _ _).
  assert (querySelector "upload-form" p2 = None) as Hf2.
  { apply (querySelector_None_shrink _ p1); [done| |by rewrite Hf1].
    intros x. simpl. apply replaceChildren_elementsOf. by case_decide. }
  rewrite bindUploadForm_unfold, Hf2. done.
Qed.

Lemma missing_target_throws_witness :
  (script sampleHost noYearPage).2 = Throw TypeError
  ∧ submitListener (script sampleHost noYearPage).1 = submitListener noYearPage
  ∧ objects (script sampleHost noYearPage).1 = objects noYearPage
  ∧ (getElementById "year" noYearPage = None →
     document (script sampleHost noYearPage).1 = document noYearPage).
Proof.
  apply (missing_target_throws sampleHost noYearPage).
  - reflexivity.
  - left. vm_compute. reflexivity.
Defined.

(** ** The scenario of the specification

    Sections 1, 2 and 3 are marked. A scroll brings 1 to 25% and 2 to
    10%; a further scroll brings 2 to 30% and 1 back to 0%. The entries
    carry the flags a host that honours the threshold reports. *)
Example scenario_three_sections :
  let o := mkObserver 0.2 [1; 2; 3] in
  let scroll1 := Intersections [Entry.mk 1 true 0.25; Entry.mk 2 false 0.1] in
  let scroll2 := Intersections [Entry.mk 2 true 0.3; Entry.mk 1 false 0] in
  let first := run [scroll1] loadedPage in
  let second := run [scroll2] first in
  observer loadedPage = Some o
  ∧ hostHonoursThreshold o scroll1 = true
  ∧ hostHonoursThreshold o scroll2 = true
  ∧ classListOf 1 first = Some ["reveal"; "visible"]
  ∧ classListOf 2 first = Some ["reveal"]
  ∧ classListOf 3 first = Some ["card"; "reveal"]
  ∧ classListOf 1 second = Some ["reveal"; "visible"]
  ∧ classListOf 2 second = Some ["reveal"; "visible"]
  ∧ classListOf 3 second = Some ["card"; "reveal"].
Proof. repeat split; vm_compute; reflexivity. Qed.

(** * Further properties of the script *)

(** ** The exact effect of a run on a class list *)

Lemma Page_eq p q :
  objects p = objects q → document p = document q →
  observer p = observer q → submitListener p = submitListener q → p = q.
Proof. destruct p, q. simpl. by intros -> -> -> ->. Qed.

Lemma classListOf_deliver_exact p ev r :
  classListOf r (deliver p ev)
  = if decide (is_Some (observer p) ∧ revealing r ev)
    then DOMTokenList_add "visible" <$> classListOf r p
    else classListOf r p.
Proof.
  destruct ev as [entries|t]; simpl.
  - destruct (observer p) as [o|] eqn:Ho.
    + rewrite classListOf_callback. case_decide as Hr.
      * by rewrite decide_True by (split; [by eexists|done]).
      * rewrite decide_False; [done|]. by intros [_ ?].
    + rewrite decide_False; [done|]. by intros [[? ?] _].
  - rewrite decide_False by (by intros [_ ?]). apply classListOf_dispatchSubmit.
Qed.

Lemma classListOf_run evs p r :
  classListOf r (run evs p)
  = if decide (is_Some (observer p) ∧ Exists (revealing r) evs)
    then DOMTokenList_add "visible" <$> classListOf r p
    else classListOf r p.
Proof.
  revert p. induction evs as [|ev evs IH]; intros p.
  - simpl. rewrite decide_False; [done|]. intros [_ H]. by apply Exists_nil in H.
  - unfold run in *. simpl. rewrite IH, observer_deliver, classListOf_deliver_exact.
    destruct (decide (is_Some (observer p) ∧ Exists (revealing r) evs)) as [[Ho He]|Hn];
      destruct (decide (is_Some (observer p) ∧ revealing r ev)) as [[Ho' Hr]|Hn'].
    + rewrite decide_True by (split; [done|by apply Exists_cons; left]).
      destruct (classListOf r p); simpl; [|done]. by rewrite DOMTokenList_add_idem.
    + by rewrite decide_True by (split; [done|by apply Exists_cons; right]).
    + by rewrite decide_True by (split; [done|by apply Exists_cons; left]).
    + rewrite decide_False; [done|]. rewrite Exists_cons. tauto.
Qed.

(** X10. The reveal state after any run: [e] carries 'visible' exactly
    when it carried it before, or when it is an element of the page, the
    observer exists and some delivered batch held an intersecting entry
    for it. *)
Theorem visible_iff_revealed (p : Page) (e : ref) (evs : list HostEvent) :
  classList_contains e "visible" (run evs p)
  ↔ classList_contains e "visible" p
    ∨ (is_Some (objects p !! e) ∧ is_Some (observer p) ∧ Exists (revealing e) evs).
Proof.
  unfold classList_contains. rewrite classListOf_run. unfold classListOf at 1 2.
  case_decide as Hd.
  - destruct Hd as [Ho He]. destruct (objects p !! e) as [el|] eqn:Hel; simpl.
    + split; [|intros _].
      * intros _. right. split_and!; [by eexists|done|done].
      * eexists. split; [done|]. apply DOMTokenList_add_elem.
    + split; [by intros (? & ? & _)|].
      unfold classListOf. rewrite Hel. simpl.
      intros [(? & ? & _)|([? ?] & _)]; done.
  - fold (classListOf e p). split; [by left|].
    intros [?|(? & ? & ?)]; [done|]. destruct Hd. done.
Qed.

(** X11. No token other than 'visible' is ever added to or removed
    from a class list, by the script at load or by any run of host
    events after it. *)
Theorem other_tokens_are_untouched (host : Host) (p : Page) (e : ref)
    (c : string) (evs : list HostEvent) :
  c ≠ "visible" →
  classList_contains e c (run evs (script host p).1) ↔ classList_contains e c p.
Proof.
  intros Hc. unfold classList_contains. rewrite classListOf_run.
  assert (classListOf e (script host p).1 = classListOf e p) as ->.
  { unfold classListOf. by rewrite script_objects. }
  case_decide; [|done].
  destruct (classListOf e p) as [tokens|]; simpl; [|done]. split.
  - intros (tokens' & [= <-] & [?|?]%DOMTokenList_add_inv); [done|]. by exists tokens.
  - intros (tokens' & [= <-] & ?). eexists. split; [done|].
    by apply DOMTokenList_add_keeps.
Qed.

Lemma other_tokens_are_untouched_witness :
  let evs := [Intersections [Entry.mk 3 true 0.3]; Submit 4] in
  classList_contains 3 "card" (run evs (script sampleHost samplePage).1)
  ↔ classList_contains 3 "card" samplePage.
Proof. intros evs. apply other_tokens_are_untouched. discriminate. Defined.

(** X12. Class lists only grow at the end and stay free of duplicates:
    after the script and any run of host events the tokens an element
    had are a prefix of the tokens it has, in the same order, and a
    list without duplicates is still without duplicates. *)
Theorem class_lists_grow_at_the_end (host : Host) (p : Page) (e : ref)
    (tokens : list string) (evs : list HostEvent) :
  classListOf e p = Some tokens →
  ∃ tokens', classListOf e (run evs (script host p).1) = Some tokens'
             ∧ tokens `prefix_of` tokens'
             ∧ (NoDup tokens → NoDup tokens').
Proof.
  intros Hl. rewrite classListOf_run.
  assert (classListOf e (script host p).1 = classListOf e p) as ->.
  { unfold classListOf. by rewrite script_objects. }
  rewrite Hl. case_decide; simpl.
  - eexists. split; [done|]. split.
    + unfold DOMTokenList_add. case_decide; [done|]. by apply prefix_app_r.
    + apply DOMTokenList_add_NoDup.
  - by exists tokens.
Qed.

Lemma class_lists_grow_at_the_end_witness :
  ∃ tokens', classListOf 3 (run [Intersections [Entry.mk 3 true 0.3]; Submit 4]
                                (script sampleHost samplePage).1) = Some tokens'
             ∧ ["card"; "reveal"] `prefix_of` tokens'
             ∧ (NoDup ["card"; "reveal"] → NoDup tokens').
Proof. apply class_lists_grow_at_the_end. vm_compute. reflexivity. Defined.

(** ** Batches, order and independence *)

(** X9. The callback's result depends only on which elements a batch
    reveals: two batches with intersecting entries for the same elements
    leave the same page, whatever the order, the repetitions and the
    entries that are not intersecting. *)
Theorem callback_ignores_order (p : Page) (entries entries' : list Entry.t) :
  (∀ r, reveals r entries ↔ reveals r entries') →
  callback entries p = callback entries' p.
Proof.
  intros Hsame.
  destruct (callback_frame entries p) as (Hd & Ho & Hl).
  destruct (callback_frame entries' p) as (Hd' & Ho' & Hl').
  apply Page_eq; [|congruence..].
  apply map_eq. intros r. rewrite !callback_lookup.
  destruct (decide (reveals r entries)) as [Hr|Hr].
  - by rewrite decide_True by by apply Hsame.
  - rewrite decide_False; [done|]. by rewrite <- Hsame.
Qed.

Lemma callback_ignores_order_witness :
  callback [Entry.mk 1 true 0.25; Entry.mk 2 false 0.1; Entry.mk 3 true 1] loadedPage
  = callback [Entry.mk 3 true 0.5; Entry.mk 1 true 0.3; Entry.mk 3 true 0.2] loadedPage.
Proof.
  apply callback_ignores_order. intros r.
  rewrite !reveals_cons. pose proof (reveals_nil r) as Hnil. simpl.
  split.
  - intros [[<- _]|[[_ ?]|[[<- _]|?]]]; try done; auto 6.
  - intros [[<- _]|[[<- _]|[[<- _]|?]]]; try done; auto 6.
Defined.

Lemma hasLocalName_callback entries p tag r :
  hasLocalName (callback entries p) tag r = hasLocalName p tag r.
Proof.
  unfold hasLocalName. rewrite callback_lookup.
  case_decide; [|done]. by destruct (objects p !! r).
Qed.

Lemma Element_querySelector_callback entries p t tag :
  Element_querySelector t tag (callback entries p) = Element_querySelector t tag p.
Proof.
  unfold Element_querySelector.
  destruct (callback_frame entries p) as (-> & _). f_equal.
  apply list_filter_iff. intros d. by rewrite hasLocalName_callback.
Qed.

Lemma dispatchSubmit_callback entries t p :
  dispatchSubmit t (callback entries p)
  = (callback entries (dispatchSubmit t p).1, (dispatchSubmit t p).2).
Proof.
  destruct (callback_frame entries p) as (Hd & Ho & Hl).
  unfold dispatchSubmit, onPath. rewrite Hl, Hd.
  destruct (submitListener p) as [l|]; [|done].
  destruct (subtree l (document p)) as [s|]; [|done].
  destruct (bool_decide (t ∈ elementsOf s)); [|done].
  unfold submitHandler. simpl. rewrite Element_querySelector_callback.
  destruct (Element_querySelector t "button" p) as [button|]; [|done].
  simpl. f_equal.
  destruct (callback_frame entries
              (set_disabled button true (set_textContent button "Project Submitted ✓" p)))
    as (Hd' & Ho' & Hl').
  apply Page_eq;
    [|rewrite Hd'; simpl; by rewrite Hd|rewrite Ho'; simpl; by rewrite Ho
     |rewrite Hl'; simpl; apply callback_frame].
  apply map_eq. intros r.
  rewrite (callback_lookup _ (set_disabled _ _ _)). simpl.
  rewrite !lookup_alter, !callback_lookup.
  repeat case_decide; subst; try done; by destruct (objects p !! r).
Qed.

(** X13. Revealing and submitting are independent: a batch and a
    submission delivered in either order leave the same page, and the
    batch does not change whether the submission navigates. *)
Theorem reveal_and_submit_commute (p : Page) (entries : list Entry.t) (t : ref) :
  run [Submit t; Intersections entries] p = run [Intersections entries; Submit t] p
  ∧ (dispatchSubmit t (deliver p (Intersections entries))).2 = (dispatchSubmit t p).2.
Proof.
  unfold run. simpl. rewrite observer_dispatchSubmit.
  destruct (observer p); [|done].
  by rewrite dispatchSubmit_callback.
Qed.

(** ** Registrations *)

Lemma submitListener_dispatchSubmit t p :
  submitListener (dispatchSubmit t p).1 = submitListener p.
Proof.
  unfold dispatchSubmit.
  destruct (submitListener p) as [l|] eqn:Hl; [|done].
  destruct (onPath l t p); [|done].
  unfold submitHandler. simpl.
  by destruct (Element_querySelector t "button" p).
Qed.

(** X7. The registrations are fixed at load: no batch of entries and no
    submission changes the observer, its threshold, its targets or the
    element the submit listener is bound to. *)
Theorem registrations_are_fixed (p : Page) (evs : list HostEvent) :
  observer (run evs p) = observer p
  ∧ submitListener (run evs p) = submitListener p.
Proof.
  split; [apply observer_run|].
  revert p. induction evs as [|ev evs IH]; intros p; [done|].
  unfold run in *. simpl. rewrite IH.
  destruct ev as [entries|t]; simpl.
  - destruct (observer p); [|done]. apply callback_frame.
  - apply submitListener_dispatchSubmit.
Qed.

Lemma observe_fresh (thr : Q) (l acc : list ref) :
  NoDup (acc ++ l) →
  foldl (λ o element, observe element o) (mkObserver thr acc) l
  = mkObserver thr (acc ++ l).
Proof.
  revert acc. induction l as [|element l IH]; intros acc Hnd.
  - simpl. by rewrite app_nil_r.
  - simpl. unfold observe at 2. simpl.
    rewrite decide_False.
    + rewrite IH; [by rewrite <- app_assoc|]. by rewrite <- app_assoc.
    + apply NoDup_app in Hnd as (_ & Hdis & _). intros Hin.
      apply (Hdis element Hin). left.
Qed.

(** X8. When no element occurs twice in the tree, the observer's
    targets after load are the marked elements in document order. *)
Theorem targets_in_document_order (host : Host) (p : Page) :
  intersectionObserverDefined host = true →
  NoDup (elementsOf (document p)) →
  observer (script host p).1 = Some (mkObserver 0.2 (querySelectorAll "reveal" p)).
Proof.
  intros Hd Hnd. rewrite script_observer by done. f_equal.
  apply (observe_fresh _ _ []). simpl.
  unfold querySelectorAll. by apply NoDup_filter.
Qed.

Lemma targets_in_document_order_witness :
  observer (script sampleHost samplePage).1
  = Some (mkObserver 0.2 (querySelectorAll "reveal" samplePage)).
Proof.
  apply targets_in_document_order; [reflexivity|].
  apply (bool_decide_unpack _). vm_compute. exact I.
Defined.

(** ** Hosts and pages the script does not expect *)

Lemma unsupported_host_reveals_nothing_witness :
  script legacyHost samplePage = (samplePage, Throw ReferenceError)
  ∧ classListOf 1 (run [Intersections [Entry.mk 1 true 1]; Submit 4]
                       (script legacyHost samplePage).1)
    = classListOf 1 samplePage.
Proof. apply unsupported_host_reveals_nothing; reflexivity. Defined.

(** X2. A submission that reaches the listener at a target without a
    button descendant: the handler has already canceled the event when
    line 20 throws, so no navigation follows, and the page is left as it
    was. *)
Theorem submit_without_button (p : Page) (form t : ref) :
  submitListener p = Some form →
  onPath form t p = true →
  Element_querySelector t "button" p = None →
  submitHandler (Event.mk t false) p = (Event.mk t true, p, Throw TypeError)
  ∧ dispatchSubmit t p = (p, false).
Proof.
  intros Hl Hpath Hb. unfold dispatchSubmit, submitHandler. simpl.
  by rewrite Hl, Hpath, Hb.
Qed.

Lemma submit_without_button_witness :
  let p := (script sampleHost buttonlessPage).1 in
  submitHandler (Event.mk 4 false) p = (Event.mk 4 true, p, Throw TypeError)
  ∧ dispatchSubmit 4 p = (p, false).
Proof.
  intros p. apply (submit_without_button p 4 4); vm_compute; reflexivity.
Defined.

(** X3. A consequence of the missing null check on line 15: on a page
    without the year placeholder the script stops before line 17, so a
    later submission of the form is not intercepted; the default action
    takes place and the button is neither relabelled nor disabled. *)
Theorem missing_year_leaves_form_live (host : Host) (p : Page) (t : ref) :
  intersectionObserverDefined host = true →
  getElementById "year" p = None →
  submitListener p = None →
  dispatchSubmit t (script host p).1 = ((script host p).1, true).
Proof.
  intros Hd Hy Hl.
  assert (submitListener (script host p).1 = None) as Hnone.
  { rewrite script_unfold, revealController_defined by done.
    set (p1 := mkPage _ _ _ _).
    assert (getElementById "year" p1 = None) as Hy1 by done.
    by rewrite stampYear_unfold, Hy1. }
  unfold dispatchSubmit. by rewrite Hnone.
Qed.

Lemma missing_year_leaves_form_live_witness :
  dispatchSubmit 4 (script sampleHost noYearPage).1
  = ((script sampleHost noYearPage).1, true).
Proof.
  apply missing_year_leaves_form_live; vm_compute; reflexivity.
Defined.

(** X5. The script's writes at load: no element object changes on any
    host, and the tree either stays as it is or differs by the children
    of the year placeholder, which become the year's text. *)
Theorem load_writes_the_year_only (host : Host) (p : Page) :
  objects (script host p).1 = objects p
  ∧ (document (script host p).1 = document p
     ∨ ∃ y, intersectionObserverDefined host = true
            ∧ getElementById "year" p = Some y
            ∧ document (script host p).1
              = document (set_textContent y (pretty (fullYear host)) p)).
Proof.
  split; [apply script_objects|].
  rewrite script_unfold.
  destruct (intersectionObserverDefined host) eqn:Hd.
  - rewrite revealController_defined by done.
    set (p1 := mkPage _ _ _ _).
    assert (getElementById "year" p1 = getElementById "year" p) as Hy1 by done.
    rewrite stampYear_unfold, Hy1.
    destruct (getElementById "year" p) as [y|]; [|by left].
    right. exists y. split_and!; [done..|].
    set (p2 := set_textContent _ _ p1).
    pose proof (bindUploadForm_frame p2) as (_ & _ & Hdoc). by rewrite Hdoc.
  - rewrite revealController_undefined by done. by left.
Qed.

(** ** Trees in which no element occurs twice *)

Lemma NoDup_bind_elem {A B} (f : A → list B) (l : list A) (k : A) :
  NoDup (l ≫= f) → k ∈ l → NoDup (f k).
Proof.
  induction l as [|a l IH]; [by intros _ ?%elem_of_nil|].
  rewrite bind_cons, NoDup_app. intros (Ha & _ & Hl) [->|Hk]%elem_of_cons; auto.
Qed.

Lemma NoDup_bind_unique {A B} (f : A → list B) (l : list A) (k k' : A) (x : B) :
  NoDup (l ≫= f) → k ∈ l → k' ∈ l → x ∈ f k → x ∈ f k' → k = k'.
Proof.
  induction l as [|a l IH]; [by intros _ ?%elem_of_nil|].
  rewrite bind_cons, NoDup_app. intros (Ha & Hdis & Hl) Hk Hk' Hx Hx'.
  apply elem_of_cons in Hk as [->|Hk]; apply elem_of_cons in Hk' as [->|Hk']; auto.
  - destruct (Hdis x Hx). apply list_elem_of_bind. by exists k'.
  - destruct (Hdis x Hx'). apply list_elem_of_bind. by exists k.
Qed.

Lemma bind_ext_in {A B} (f g : A → list B) (l : list A) :
  (∀ k, k ∈ l → f k = g k) → l ≫= f = l ≫= g.
Proof.
  induction l as [|a l IH]; intros Hfg; [done|].
  rewrite !bind_cons, IH, (Hfg a); [done|left|].
  intros k Hk. apply Hfg. by right.
Qed.

Lemma filter_bind {A B} (P : B → Prop) `{∀ x, Decision (P x)}
    (f : A → list B) (l : list A) :
  filter P (l ≫= f) = l ≫= (λ k, filter P (f k)).
Proof.
  induction l as [|a l IH]; [done|].
  by rewrite !bind_cons, filter_app, IH.
Qed.

Lemma filter_all {A} (P : A → Prop) `{∀ x, Decision (P x)} (l : list A) :
  (∀ x, x ∈ l → P x) → filter P l = l.
Proof.
  induction l as [|a l IH]; intros Hall; [done|].
  rewrite filter_cons_True by (apply Hall; left).
  rewrite IH; [done|]. intros x Hx. apply Hall. by right.
Qed.

Lemma head_filter_filter {A} (P Q : A → Prop)
    `{∀ x, Decision (P x)} `{∀ x, Decision (Q x)} (l : list A) (a : A) :
  head (filter P l) = Some a → Q a → head (filter P (filter Q l)) = Some a.
Proof.
  intros Hh HQ.
  assert (P a) as HP.
  { apply head_Some_elem_of in Hh. by apply list_elem_of_filter in Hh as [? _]. }
  apply head_filter_Some in Hh as (l1 & l2 & -> & Hl1).
  rewrite (filter_app Q), (filter_cons_True Q) by done.
  rewrite (filter_app P), (filter_cons_True P) by done.
  rewrite (proj2 (filter_empty P (filter Q l1))).
  - done.
  - rewrite Forall_forall in Hl1. intros x [_ Hx]%list_elem_of_filter. by apply Hl1.
Qed.

Lemma firstSome_None_inv {A B} (f : A → option B) (l : list A) :
  firstSome f l = None → Forall (λ a, f a = None) l.
Proof.
  induction l as [|a l IH]; simpl; [by constructor|].
  destruct (f a) eqn:Ha; [done|]. intros Hl. constructor; auto.
Qed.

Lemma subtree_None_absent r n : subtree r n = None → r ∉ elementsOf n.
Proof.
  induction n as [data|r' kids IH] using Node_forall_ind.
  - intros _. apply not_elem_of_nil.
  - simpl. case_decide as Hr; [done|].
    intros Hnone%firstSome_None_inv. apply not_elem_of_cons. split; [done|].
    intros (k & Hin & Hk)%list_elem_of_bind.
    rewrite Forall_forall in IH, Hnone. by apply (IH k Hk (Hnone k Hk)).
Qed.

Lemma subtree_root_elem r n s : subtree r n = Some s → r ∈ elementsOf n.
Proof.
  intros Hs. destruct (decide (r ∈ elementsOf n)) as [|Hn]; [done|].
  by rewrite subtree_absent in Hs.
Qed.

(** Below a root that is not [b], the subtree of [b] is found in the
    one child that holds [b]. *)
Lemma firstSome_subtree_kid b kids k :
  NoDup (kids ≫= elementsOf) → k ∈ kids → b ∈ elementsOf k →
  firstSome (subtree b) kids = subtree b k.
Proof.
  induction kids as [|k0 kids IH]; [by intros _ ?%elem_of_nil|].
  rewrite bind_cons, NoDup_app. intros (Hk0 & Hdis & Hkids) Hk Hb. simpl.
  apply elem_of_cons in Hk as [->|Hk].
  - destruct (subtree b k0) eqn:Hs; [done|].
    by apply subtree_None_absent in Hs.
  - rewrite subtree_absent; [by apply IH|].
    intros Hb0. apply (Hdis b Hb0), list_elem_of_bind. by exists k.
Qed.

Lemma descendants_kid b r kids k :
  r ≠ b → NoDup (kids ≫= elementsOf) → k ∈ kids → b ∈ elementsOf k →
  descendants b (Elem r kids) = descendants b k.
Proof.
  intros Hr Hnd Hk Hb. unfold descendants. simpl.
  by rewrite decide_False, (firstSome_subtree_kid b kids k) by done.
Qed.

Lemma descendants_kid_inv b r kids x :
  r ≠ b → x ∈ descendants b (Elem r kids) →
  ∃ k, k ∈ kids ∧ b ∈ elementsOf k ∧ x ∈ elementsOf k.
Proof.
  intros Hr. unfold descendants. simpl. rewrite decide_False by done.
  destruct (firstSome (subtree b) kids) as [[data|b' ks]|] eqn:Hf;
    try by intros ?%elem_of_nil.
  apply firstSome_Some in Hf as (k & Hk & Hs). intros Hx.
  exists k. split_and!; [done|by apply subtree_root_elem in Hs|].
  apply (subtree_elementsOf b k (Elem b' ks)); [done|]. simpl. by right.
Qed.

Lemma subtree_NoDup a n s :
  subtree a n = Some s → NoDup (elementsOf n) → NoDup (elementsOf s).
Proof.
  induction n as [data|r kids IH] using Node_forall_ind; [done|].
  simpl. case_decide as Hr; [by intros [= <-]|].
  intros (k & Hk & Hs)%firstSome_Some [_ Hnd]%NoDup_cons.
  rewrite Forall_forall in IH. apply (IH k Hk Hs).
  by apply (NoDup_bind_elem elementsOf kids).
Qed.

Lemma root_not_descendant b n :
  NoDup (elementsOf n) → b ∉ descendants b n.
Proof.
  intros Hnd. unfold descendants.
  destruct (subtree b n) as [[data|b' ks]|] eqn:Hs; try apply not_elem_of_nil.
  pose proof (subtree_NoDup _ _ _ Hs Hnd) as Hnd'.
  destruct (subtree_root _ _ _ Hs) as (ks' & [= -> ->]).
  simpl in Hnd'. by apply NoDup_cons in Hnd' as [? _].
Qed.

(** What is left of the elements after the children of [y] are replaced
    by text: everything but the descendants of [y], in the same order. *)
Lemma replaceChildren_elementsOf_filter y new n :
  NoDup (elementsOf n) → new ≫= elementsOf = [] →
  elementsOf (replaceChildren y new n)
  = filter (λ x, x ∉ descendants y n) (elementsOf n).
Proof.
  intros Hnd Hnew. revert Hnd.
  induction n as [data|r kids IH] using Node_forall_ind; [done|].
  simpl. intros [Hr Hnd]%NoDup_cons. case_decide as Hy.
  - subst r. simpl. rewrite Hnew.
    assert (descendants y (Elem y kids) = kids ≫= elementsOf) as ->.
    { unfold descendants. simpl. by rewrite decide_True. }
    rewrite filter_cons_True by done. f_equal. symmetry.
    apply filter_empty. by intros x Hx Hx'.
  - simpl. rewrite filter_cons_True.
    2:{ intros (k & Hk & _ & Hx)%descendants_kid_inv; [|done].
        apply Hr, list_elem_of_bind. by exists k. }
    f_equal. rewrite list_fmap_bind, filter_bind. apply bind_ext_in.
    intros k Hk. simpl. rewrite Forall_forall in IH.
    destruct (decide (y ∈ elementsOf k)) as [Hyk|Hyk].
    + rewrite (descendants_kid y r kids k) by done.
      apply IH; [done|]. by apply (NoDup_bind_elem elementsOf kids).
    + rewrite replaceChildren_absent by done. symmetry. apply filter_all.
      intros x Hx (k' & Hk' & Hyk' & Hx')%descendants_kid_inv; [|done].
      by rewrite (NoDup_bind_unique elementsOf kids k k' x) in Hyk.
Qed.

Lemma subtree_within b t n sb :
  subtree b n = Some sb → t ∈ elementsOf sb → NoDup (elementsOf n) →
  subtree t n = subtree t sb.
Proof.
  induction n as [data|r kids IH] using Node_forall_ind; [done|].
  simpl. case_decide as Hr; [by intros [= <-]|].
  intros (k & Hk & Hs)%firstSome_Some Ht [Hroot Hnd]%NoDup_cons.
  pose proof (subtree_elementsOf _ _ _ _ Hs Ht) as Htk.
  rewrite decide_False.
  - rewrite (firstSome_subtree_kid t kids k) by done.
    rewrite Forall_forall in IH. apply IH; [done..|].
    by apply (NoDup_bind_elem elementsOf kids).
  - intros ->. apply Hroot, list_elem_of_bind. by exists k.
Qed.

Lemma descendants_within b t n sb :
  subtree b n = Some sb → t ∈ elementsOf sb → NoDup (elementsOf n) →
  descendants t n = descendants t sb.
Proof. intros Hs Ht Hnd. unfold descendants. by rewrite (subtree_within b t n sb). Qed.

Lemma descendants_subtree b n kids :
  subtree b n = Some (Elem b kids) → descendants b n = kids ≫= elementsOf.
Proof. intros Hs. unfold descendants. by rewrite Hs. Qed.

Lemma descendants_inv b n x :
  x ∈ descendants b n →
  ∃ kids, subtree b n = Some (Elem b kids) ∧ x ∈ kids ≫= elementsOf.
Proof.
  unfold descendants. destruct (subtree b n) as [[data|b' kids]|] eqn:Hs;
    try by intros ?%elem_of_nil.
  destruct (subtree_root _ _ _ Hs) as (kids' & [= -> ->]). by exists kids'.
Qed.

(** Descendants of a descendant are descendants. *)
Lemma descendants_trans b t n x :
  NoDup (elementsOf n) →
  t ∈ descendants b n → x ∈ descendants t n → x ∈ descendants b n.
Proof.
  intros Hnd (kb & Hsb & Ht)%descendants_inv Hx.
  assert (t ∈ elementsOf (Elem b kb)) as Ht' by (simpl; by right).
  rewrite (descendants_within b t n (Elem b kb)) in Hx by done.
  pose proof (subtree_NoDup _ _ _ Hsb Hnd) as Hnd'. simpl in Hnd'.
  apply NoDup_cons in Hnd' as [Hb _].
  assert (b ≠ t) as Hbt by (by intros ->).
  apply descendants_kid_inv in Hx as (k & Hk & _ & Hx); [|done].
  rewrite (descendants_subtree b n kb) by done.
  apply list_elem_of_bind. by exists k.
Qed.

(** An element is no descendant of its own descendants. *)
Lemma descendants_acyclic a b n :
  NoDup (elementsOf n) → b ∈ descendants a n → a ≠ b ∧ a ∉ descendants b n.
Proof.
  intros Hnd Hb. split.
  - intros ->. by apply (root_not_descendant b n).
  - intros Ha. apply (root_not_descendant b n Hnd).
    by apply (descendants_trans b a n b).
Qed.

Lemma firstSome_fmap {A B} (f : A → option B) (g : A → A) (h : B → B) (l : list A) :
  (∀ k, k ∈ l → f (g k) = h <$> f k) →
  firstSome f (g <$> l) = h <$> firstSome f l.
Proof.
  induction l as [|a l IH]; intros Hk; [done|].
  rewrite fmap_cons. simpl. rewrite (Hk a) by left.
  destruct (f a); simpl; [done|]. apply IH. intros k ?. apply Hk. by right.
Qed.

(** The subtree of an element that does not lie below [b] is found
    after the children of [b] are replaced, with the replacement
    carried out inside it. *)
Lemma subtree_replaceChildren_other a b new n :
  NoDup (elementsOf n) → new ≫= elementsOf = [] →
  a ≠ b → a ∉ descendants b n →
  subtree a (replaceChildren b new n) = replaceChildren b new <$> subtree a n.
Proof.
  intros Hnd Hnew Hab. revert Hnd.
  induction n as [data|r kids IH] using Node_forall_ind; [done|].
  intros [Hroot Hnd]%NoDup_cons Ha. simpl replaceChildren. case_decide as Hr.
  - subst r. simpl. rewrite !decide_False by done.
    rewrite (descendants_subtree b (Elem b kids) kids) in Ha
      by (simpl; by rewrite decide_True).
    rewrite !firstSome_None; [done| |].
    + apply Forall_forall. intros k Hk. apply subtree_absent.
      intros Hin. apply Ha, list_elem_of_bind. by exists k.
    + apply Forall_forall. intros k Hk. apply subtree_absent.
      intros Hin. apply (not_elem_of_nil a). rewrite <- Hnew.
      apply list_elem_of_bind. by exists k.
  - simpl. case_decide as Hra.
    + simpl. by rewrite decide_False.
    + apply firstSome_fmap. intros k Hk. rewrite Forall_forall in IH.
      destruct (decide (b ∈ elementsOf k)) as [Hbk|Hbk].
      * apply IH; [done|by apply (NoDup_bind_elem elementsOf kids)|].
        by rewrite <- (descendants_kid b r kids k).
      * rewrite replaceChildren_absent by done.
        destruct (subtree a k) as [s|] eqn:Hs; simpl; [|done].
        rewrite replaceChildren_absent; [done|].
        intros Hbs. by apply Hbk, (subtree_elementsOf a k s).
Qed.

(** The descendants of an ancestor of [b] after the children of [b] are
    replaced by text. *)
Lemma descendants_replaceChildren b t new n :
  NoDup (elementsOf n) → new ≫= elementsOf = [] →
  b ∈ descendants t n →
  descendants t (replaceChildren b new n)
  = filter (λ x, x ∉ descendants b n) (descendants t n).
Proof.
  intros Hnd Hnew Hb.
  destruct (descendants_acyclic t b n Hnd Hb) as [Htb Ht].
  destruct (descendants_inv _ _ _ Hb) as (kt & Hst & Hbk).
  pose proof (subtree_NoDup _ _ _ Hst Hnd) as Hnd'.
  assert (b ∈ elementsOf (Elem t kt)) as Hbt by (simpl; by right).
  pose proof (replaceChildren_elementsOf_filter b new (Elem t kt) Hnd' Hnew) as HE.
  rewrite <- (descendants_within t b n (Elem t kt)) in HE by done.
  simpl in HE. rewrite decide_False in HE by done. simpl in HE.
  rewrite filter_cons_True in HE by done. injection HE as HE.
  unfold descendants at 1.
  rewrite (subtree_replaceChildren_other t b new n), Hst by done.
  simpl. rewrite decide_False by done.
  by rewrite (descendants_subtree t n kt).
Qed.

Lemma replaceChildren_idem r new n :
  replaceChildren r new (replaceChildren r new n) = replaceChildren r new n.
Proof.
  induction n as [data|r' kids IH] using Node_forall_ind; [done|].
  simpl. case_decide as Hr; simpl.
  - by rewrite decide_True.
  - rewrite decide_False by done. f_equal.
    rewrite <- list_fmap_compose. apply list_fmap_ext.
    rewrite Forall_forall in IH. intros i k Hk%list_elem_of_lookup_2. by apply IH.
Qed.

Lemma inclusive_replaceChildren a t b new n sa :
  NoDup (elementsOf n) → new ≫= elementsOf = [] →
  subtree a n = Some sa → t ∈ elementsOf sa → b ∈ descendants t n →
  ∃ sa', subtree a (replaceChildren b new n) = Some sa' ∧ t ∈ elementsOf sa'.
Proof.
  intros Hnd Hnew Hsa Ht Hb.
  destruct (subtree_root _ _ _ Hsa) as (ka & ->).
  assert (b ∈ descendants a n) as Hba.
  { simpl in Ht. apply elem_of_cons in Ht as [->|Ht]; [done|].
    apply (descendants_trans a t n b); [done| |done].
    by rewrite (descendants_subtree a n ka). }
  destruct (descendants_acyclic a b n Hnd Hba) as [Hab Ha].
  destruct (descendants_acyclic t b n Hnd Hb) as [_ Htb].
  exists (replaceChildren b new (Elem a ka)). split.
  - by rewrite (subtree_replaceChildren_other a b new n), Hsa.
  - rewrite replaceChildren_elementsOf_filter;
      [|by apply (subtree_NoDup a n)|done].
    apply list_elem_of_filter. split; [|done].
    rewrite <- (descendants_within a b n (Elem a ka)); [done..| |done].
    simpl. right. by rewrite <- (descendants_subtree a n ka).
Qed.

Lemma hasLocalName_submitted button s p tag r :
  hasLocalName (set_disabled button true (set_textContent button s p)) tag r
  = hasLocalName p tag r.
Proof.
  unfold hasLocalName. simpl. rewrite lookup_alter.
  case_decide; [subst|done]. by destruct (objects p !! r).
Qed.

(** ** Submitting again *)

(** X4. Submitting a second time changes nothing more. In a tree where
    no element occurs twice, after a submission that found the button,
    the same submission again is still intercepted, finds the same
    button, and leaves the page exactly as the first one left it. *)
Theorem second_submission_changes_nothing (p : Page) (form t button : ref) :
  NoDup (elementsOf (document p)) →
  submitListener p = Some form →
  onPath form t p = true →
  Element_querySelector t "button" p = Some button →
  dispatchSubmit t (dispatchSubmit t p).1 = dispatchSubmit t p
  ∧ run [Submit t; Submit t] p = run [Submit t] p.
Proof.
  intros Hnd Hl Hpath Hq.
  set (p1 := set_disabled button true (set_textContent button "Project Submitted ✓" p)).
  assert (dispatchSubmit t p = (p1, false)) as H1.
  { unfold dispatchSubmit, submitHandler. simpl. by rewrite Hl, Hpath, Hq. }
  assert ([Text "Project Submitted ✓"] ≫= elementsOf = []) as Hnew by done.
  assert (button ∈ descendants t (document p)) as Hb.
  { unfold Element_querySelector in Hq. apply head_Some_elem_of in Hq.
    by apply list_elem_of_filter in Hq as [_ ?]. }
  assert (onPath form t p1 = true) as Hpath1.
  { unfold onPath in *. simpl.
    destruct (subtree form (document p)) as [sf|] eqn:Hsf; [|done].
    apply bool_decide_eq_true in Hpath.
    destruct (inclusive_replaceChildren form t button [Text "Project Submitted ✓"]
                (document p) sf)
      as (sf' & -> & Ht); try done.
    by apply bool_decide_eq_true. }
  assert (Element_querySelector t "button" p1 = Some button) as Hq1.
  { unfold Element_querySelector in *. simpl document.
    rewrite descendants_replaceChildren by done.
    apply head_filter_filter; [|by apply root_not_descendant].
    rewrite <- Hq. f_equal. apply list_filter_iff. intros d.
    unfold p1. by rewrite hasLocalName_submitted. }
  assert (dispatchSubmit t p1 = (p1, false)) as H2.
  { unfold dispatchSubmit, submitHandler. simpl submitListener.
    rewrite Hl, Hpath1. simpl. rewrite Hq1. f_equal.
    apply Page_eq; simpl; try done.
    - apply map_eq. intros r. rewrite !lookup_alter.
      repeat case_decide; try done. by destruct (objects p !! button).
    - apply replaceChildren_idem. }
  split.
  - rewrite H1. cbn [fst]. by rewrite H2.
  - unfold run. cbn [foldl deliver]. rewrite H1. cbn [fst]. by rewrite H2.
Qed.

Lemma second_submission_changes_nothing_witness :
  dispatchSubmit 4 (dispatchSubmit 4 loadedPage).1 = dispatchSubmit 4 loadedPage
  ∧ run [Submit 4; Submit 4] loadedPage = run [Submit 4] loadedPage.
Proof.
  apply (second_submission_changes_nothing loadedPage 4 4 5).
  - apply (bool_decide_unpack _). vm_compute. exact I.
  - vm_compute. reflexivity.
  - vm_compute. reflexivity.
  - vm_compute. reflexivity.
Defined.

(** ** The page the script expects *)

(** X6. On a host that defines IntersectionObserver, for a tree in
    which no element occurs twice, with a year placeholder and a first
    '.upload-form' element that does not lie inside the placeholder: the
    script completes without an exception and its submit listener sits
    on that form, so that a submission at the form reaches the handler. *)
Theorem script_completes (host : Host) (p : Page) (y form : ref) :
  intersectionObserverDefined host = true →
  NoDup (elementsOf (document p)) →
  getElementById "year" p = Some y →
  querySelector "upload-form" p = Some form →
  form ∉ descendants y (document p) →
  (script host p).2 = Normal ()
  ∧ submitListener (script host p).1 = Some form
  ∧ onPath form form (script host p).1 = true.
Proof.
  intros Hd Hnd Hy Hf Hout.
  rewrite script_unfold, revealController_defined by done.
  set (p1 := mkPage _ _ _ _).
  assert (getElementById "year" p1 = Some y) as Hy1 by done.
  rewrite stampYear_unfold, Hy1.
  set (s := pretty (fullYear host)).
  set (new := if decide (s = EmptyString) then [] else [Text s]).
  assert (new ≫= elementsOf = []) as Hnew by (unfold new; by case_decide).
  assert (elementsOf (document (set_textContent y s p1))
          = filter (λ x, x ∉ descendants y (document p)) (elementsOf (document p)))
    as Helems by (by apply replaceChildren_elementsOf_filter).
  assert (querySelector "upload-form" (set_textContent y s p1) = Some form) as Hf2.
  { unfold querySelector, querySelectorAll in *. rewrite Helems.
    by apply head_filter_filter. }
  rewrite bindUploadForm_unfold, Hf2. simpl. split_and!; [done..|].
  assert (form ∈ elementsOf (replaceChildren y new (document p))) as Hin.
  { change (form ∈ elementsOf (document (set_textContent y s p1))).
    rewrite Helems. apply list_elem_of_filter. split; [done|].
    apply head_Some_elem_of in Hf. unfold querySelectorAll in Hf.
    by apply list_elem_of_filter in Hf as [_ ?]. }
  unfold onPath. simpl. fold new.
  destruct (subtree form (replaceChildren y new (document p))) as [sf|] eqn:Hsf.
  - destruct (subtree_root _ _ _ Hsf) as (kf & ->).
    apply bool_decide_eq_true. simpl. left.
  - by apply subtree_None_absent in Hsf.
Qed.

Lemma script_completes_witness :
  (script sampleHost samplePage).2 = Normal ()
  ∧ submitListener (script sampleHost samplePage).1 = Some 4
  ∧ onPath 4 4 (script sampleHost samplePage).1 = true.
Proof.
  apply (script_completes sampleHost samplePage 6 4).
  - reflexivity.
  - apply (bool_decide_unpack _). vm_compute. exact I.
  - vm_compute. reflexivity.
  - vm_compute. reflexivity.
  - apply (bool_decide_unpack _). vm_compute. exact I.
Defined.

(** ** What never changes on an element object *)

Lemma deliver_object p ev r el :
  objects p !! r = Some el →
  ∃ el', objects (deliver p ev) !! r = Some el'
         ∧ localName el' = localName el ∧ id_attr el' = id_attr el
         ∧ (disabled el = true → disabled el' = true).
Proof.
  intros Hel. destruct ev as [entries|t]; simpl.
  - destruct (observer p); [|by exists el].
    rewrite callback_lookup, Hel. case_decide; simpl; by eexists.
  - unfold dispatchSubmit.
    destruct (submitListener p) as [l|]; [|by exists el].
    destruct (onPath l t p); [|by exists el].
    unfold submitHandler. simpl.
    destruct (Element_querySelector t "button" p) as [button|]; [|by exists el].
    simpl. rewrite lookup_alter. case_decide; [subst|by exists el].
    rewrite Hel. simpl. by eexists.
Qed.

(** X14. The script and the events after it never remove an element
    object, never change its local name or its id, and never clear a
    disabled flag: a button that was disabled stays disabled. *)
Theorem objects_keep_identity (host : Host) (p : Page) (r : ref) (el : Element)
    (evs : list HostEvent) :
  objects p !! r = Some el →
  ∃ el', objects (run evs (script host p).1) !! r = Some el'
         ∧ localName el' = localName el ∧ id_attr el' = id_attr el
         ∧ (disabled el = true → disabled el' = true).
Proof.
  rewrite <- (script_objects host p). generalize (script host p).1. clear p.
  intros p. revert p el.
  induction evs as [|ev evs IH]; intros p el Hel; [by exists el|].
  destruct (deliver_object p ev r el Hel) as (el1 & Hel1 & Hn1 & Hi1 & Hd1).
  destruct (IH (deliver p ev) el1 Hel1) as (el' & Hel' & Hn & Hi & Hd).
  exists el'. split_and!; [done|congruence|congruence|auto].
Qed.

Lemma objects_keep_identity_witness :
  let p := (dispatchSubmit 4 loadedPage).1 in
  ∃ el', objects (run [Intersections [Entry.mk 1 true 1]; Submit 4]
                      (script sampleHost p).1) !! 5 = Some el'
         ∧ localName el' = "button" ∧ id_attr el' = EmptyString
         ∧ (true = true → disabled el' = true).
Proof.
  intros p.
  apply (objects_keep_identity sampleHost p 5 (mkElement "button" EmptyString [] true)).
  vm_compute. reflexivity.
Defined.

(** ** The observer's configuration *)

(** C8. When the host defines IntersectionObserver, the script leaves
    one observer whose threshold is 0.2 and whose targets are exactly
    the elements that carry the class 'reveal' at load, each once, so
    that the one threshold holds for all of them. With a host that
    honours the threshold (the host's rule is modelled from the
    specification), an element counts as intersecting only with at
    least 0.2 of it in view: whenever a run of host events leaves
    'visible' on an element that did not have it, one of the delivered
    entries was an intersecting entry for that element with a ratio of
    at least 0.2. *)
Theorem threshold_is_one_fifth (host : Host) (p : Page) :
  intersectionObserverDefined host = true →
  ∃ o, observer (script host p).1 = Some o
       ∧ threshold o = 0.2%Q
       ∧ (∀ r, r ∈ observationTargets o ↔ r ∈ querySelectorAll "reveal" p)
       ∧ NoDup (observationTargets o)
       ∧ ∀ evs e,
           Forall (λ ev, hostHonoursThreshold o ev = true) evs →
           ¬ classList_contains e "visible" p →
           classList_contains e "visible" (run evs (script host p).1) →
           ∃ entries entry,
             Intersections entries ∈ evs ∧ entry ∈ entries
             ∧ Entry.target entry = e ∧ Entry.isIntersecting entry = true
             ∧ (0.2 <= Entry.intersectionRatio entry)%Q.
Proof.
  intros Hd.
  set (o := foldl (λ o element, observe element o) (mkObserver 0.2 [])
                  (querySelectorAll "reveal" p)).
  destruct (observe_all (querySelectorAll "reveal" p) (mkObserver 0.2 []))
    as (Ht & Hin & Hnd). fold o in Ht, Hin, Hnd. simpl in *.
  exists o. split_and!.
  - by apply script_observer.
  - done.
  - intros r. rewrite Hin, elem_of_nil. tauto.
  - apply Hnd, NoDup_nil_2.
  - intros evs e Hhost Hhidden Hvisible.
    unfold classList_contains in Hhidden, Hvisible.
    rewrite classListOf_run in Hvisible.
    assert (classListOf e (script host p).1 = classListOf e p) as Hload.
    { unfold classListOf. by rewrite script_objects. }
    rewrite Hload in Hvisible.
    case_decide as Hrun; [|done].
    destruct Hrun as [_ (ev & Hev & Hrev)%Exists_exists].
    destruct ev as [entries|t]; [|done].
    destruct Hrev as (entry & Hentry & Htarget & Hflag).
    rewrite Forall_forall in Hhost.
    pose proof (Hhost _ Hev) as Hbatch. simpl in Hbatch.
    rewrite forallb_forall in Hbatch.
    pose proof (Hbatch entry (proj1 (list_elem_of_In _ _) Hentry)) as Hratio.
    unfold honoursThreshold in Hratio. rewrite Hflag, Ht in Hratio. simpl in Hratio.
    exists entries, entry. split_and!; try done. by apply Qle_bool_iff.
Qed.

Lemma threshold_is_one_fifth_witness :
  let evs := [Intersections [Entry.mk 1 true 0.25; Entry.mk 2 false 0.1]; Submit 4] in
  (∃ o, observer (script sampleHost samplePage).1 = Some o
        ∧ threshold o = 0.2%Q
        ∧ (∀ r, r ∈ observationTargets o ↔ r ∈ querySelectorAll "reveal" samplePage)
        ∧ NoDup (observationTargets o))
  ∧ ∃ entries entry,
      Intersections entries ∈ evs ∧ entry ∈ entries
      ∧ Entry.target entry = 1 ∧ Entry.isIntersecting entry = true
      ∧ (0.2 <= Entry.intersectionRatio entry)%Q.
Proof.
  intros evs.
  destruct (threshold_is_one_fifth sampleHost samplePage eq_refl)
    as (o & Ho & Ht & Hin & Hnd & Honly).
  split; [by exists o|].
  apply (Honly evs 1).
  - apply Forall_forall. intros ev Hev. unfold hostHonoursThreshold, honoursThreshold.
    rewrite Ht. revert ev Hev. apply Forall_forall.
    repeat constructor.
  - intros (tokens & Hl & Hc). vm_compute in Hl. injection Hl as <-.
    revert Hc. apply (bool_decide_unpack _). vm_compute. exact I.
  - exists ["reveal"; "visible"]. split; [vm_compute; reflexivity|].
    apply (bool_decide_unpack _). vm_compute. exact I.
Defined.

(** The form binding on the page the script expects. *)
Lemma script_binds_form host p y form :
  intersectionObserverDefined host = true →
  NoDup (elementsOf (document p)) →
  getElementById "year" p = Some y →
  querySelector "upload-form" p = Some form →
  form ∉ descendants y (document p) →
  (script host p).2 = Normal () ∧ submitListener (script host p).1 = Some form.
Proof.
  intros Hd Hnd Hy Hf Hout.
  rewrite script_unfold, revealController_defined by done.
  set (p1 := mkPage _ _ _ _).
  assert (getElementById "year" p1 = Some y) as Hy1 by done.
  rewrite stampYear_unfold, Hy1.
  set (s := pretty (fullYear host)).
  assert ((if decide (s = EmptyString) then [] else [Text s]) ≫= elementsOf = [])
    as Hnew by (by case_decide).
  assert (querySelector "upload-form" (set_textContent y s p1) = Some form) as Hf2.
  { unfold querySelector, querySelectorAll in *. simpl document.
    rewrite replaceChildren_elementsOf_filter by done.
    by apply head_filter_filter. }
  by rewrite bindUploadForm_unfold, Hf2.
Qed.

(** C9. With no element carrying 'reveal', on a host that defines
    IntersectionObserver: the controller part of the script completes
    without an exception and changes nothing but the observer, which has
    no targets, also after the whole script; and the rest of the script
    takes effect from there: a year placeholder holds the year's text
    after the script, and when the tree holds no element twice and the
    first '.upload-form' element lies outside the placeholder, the
    script completes without an exception with its submit listener on
    that form. *)
Theorem no_marked_elements (host : Host) (p : Page) :
  intersectionObserverDefined host = true →
  querySelectorAll "reveal" p = [] →
  revealController host p
  = (mkPage (objects p) (document p) (Some (mkObserver 0.2 [])) (submitListener p),
     Normal ())
  ∧ observer (script host p).1 = Some (mkObserver 0.2 [])
  ∧ (∀ y, getElementById "year" p = Some y →
          textContent y (script host p).1 = Some (pretty (fullYear host)))
  ∧ (∀ y form,
       NoDup (elementsOf (document p)) →
       getElementById "year" p = Some y →
       querySelector "upload-form" p = Some form →
       form ∉ descendants y (document p) →
       (script host p).2 = Normal ()
       ∧ submitListener (script host p).1 = Some form).
Proof.
  intros Hd Hnone. split_and!.
  - rewrite revealController_defined by done. by rewrite Hnone.
  - rewrite script_observer by done. by rewrite Hnone.
  - intros y Hy. by apply script_stamps_year.
  - intros y form Hnd Hy Hf Hout. by apply (script_binds_form host p y form).
Qed.

Lemma no_marked_elements_witness :
  revealController sampleHost plainPage
  = (mkPage (objects plainPage) (document plainPage) (Some (mkObserver 0.2 []))
            (submitListener plainPage),
     Normal ())
  ∧ observer (script sampleHost plainPage).1 = Some (mkObserver 0.2 [])
  ∧ textContent 6 (script sampleHost plainPage).1 = Some (pretty 2026%Z)
  ∧ (script sampleHost plainPage).2 = Normal ()
  ∧ submitListener (script sampleHost plainPage).1 = Some 4.
Proof.
  destruct (no_marked_elements sampleHost plainPage) as (Hc & Ho & Hyear & Hform).
  - reflexivity.
  - vm_compute. reflexivity.
  - split_and!; [exact Hc|exact Ho| |apply (Hform 6 4)..].
    + apply (Hyear 6). vm_compute. reflexivity.
    + apply (bool_decide_unpack _). vm_compute. exact I.
    + vm_compute. reflexivity.
    + vm_compute. reflexivity.
    + apply (bool_decide_unpack _). vm_compute. exact I.
    + apply (bool_decide_unpack _). vm_compute. exact I.
    + vm_compute. reflexivity.
    + vm_compute. reflexivity.
    + apply (bool_decide_unpack _). vm_compute. exact I.
Defined.
